(** * PdfParser: classification of layout primitives and document statistics

    A shallow embedding of [file_parser.py] (the classifier [classify_items],
    the page walk [_extract_page_elements], the aggregation
    [_generate_statistics]) and of the element query of [doc_storage.py],
    followed by the properties the specification states about them.

    Python values are modelled as follows.
    - [str] is a list of Unicode code points ([pystr]).
    - [int] is [Z].
    - [float] is [pyfloat]: a finite binary64 value carried as the rational it
      denotes, an infinity, or NaN (signed zeros are not distinguished).
    - a [dict] is a [gmap]; exceptions are the [Raise] branch of [result]. *)

From Stdlib Require Import ZArith NArith QArith Qround Qabs Lia List Bool.
From Stdlib Require Import Ascii String DecimalString Sorting.Sorted.
From Stdlib Require Import Sorting.Permutation.
From stdpp Require Import gmap strings list fin_maps sorting.

Local Open Scope Z_scope.
Set Warnings "-clear-no-such-hyp".


(** ** Exceptions *)

Inductive pyerror :=
| KeyError
| TypeError
| ZeroDivisionError
| OverflowError.

Inductive result (A : Type) :=
| Ok (a : A)
| Raise (e : pyerror).
Arguments Ok {A} a.
Arguments Raise {A} e.

#[global] Instance result_bind : MBind result := fun A B k r =>
  match r with
  | Ok a => k a
  | Raise e => Raise e
  end.

(** ** Strings *)

Abbreviation pystr := (list N).

(** An ASCII literal as a Python string. *)
Definition py (s : string) : pystr := map N_of_ascii (list_ascii_of_string s).

(** [str.isspace] on one code point, which is also what [\s] matches in a
    [str] pattern and what [strip()] and [split()] without argument remove. *)
Definition is_space (c : N) : bool :=
  ((9 <=? c) && (c <=? 13) || (28 <=? c) && (c <=? 32) || (c =? 133)
   || (c =? 160) || (c =? 5760) || (8192 <=? c) && (c <=? 8202)
   || (c =? 8232) || (c =? 8233) || (c =? 8239) || (c =? 8287)
   || (c =? 12288))%N.

(** First code points of the runs of Unicode decimal digits (category Nd,
    Unicode 14.0) with the number of digits in the run; [\d] matches these. *)
Definition decimal_runs : list (N * N) :=
  [(48, 10); (1632, 10); (1776, 10); (1984, 10); (2406, 10); (2534, 10);
   (2662, 10); (2790, 10); (2918, 10); (3046, 10); (3174, 10); (3302, 10);
   (3430, 10); (3558, 10); (3664, 10); (3792, 10); (3872, 10); (4160, 10);
   (4240, 10); (6112, 10); (6160, 10); (6470, 10); (6608, 10); (6784, 10);
   (6800, 10); (6992, 10); (7088, 10); (7232, 10); (7248, 10); (42528, 10);
   (43216, 10); (43264, 10); (43472, 10); (43504, 10); (43600, 10);
   (44016, 10); (65296, 10); (66720, 10); (68912, 10); (69734, 10);
   (69872, 10); (69942, 10); (70096, 10); (70384, 10); (70736, 10);
   (70864, 10); (71248, 10); (71360, 10); (71472, 10); (71904, 10);
   (72016, 10); (72784, 10); (73040, 10); (73120, 10); (92768, 10);
   (92864, 10); (93008, 10); (120782, 50); (123200, 10); (123632, 10);
   (125264, 10); (130032, 10)]%N.

Definition is_decimal (c : N) : bool :=
  existsb (fun r => (fst r <=? c) && (c <? fst r + snd r))%N decimal_runs.

(** [[•·▪▫‣⁃]] *)
Definition is_bullet (c : N) : bool :=
  ((c =? 8226) || (c =? 183) || (c =? 9642) || (c =? 9643) || (c =? 8227)
   || (c =? 8259))%N.

(** [[\.\)]] *)
Definition is_dot_or_paren (c : N) : bool := ((c =? 46) || (c =? 41))%N.

(** [[a-zA-Z]] *)
Definition is_ascii_letter (c : N) : bool :=
  ((97 <=? c) && (c <=? 122) || (65 <=? c) && (c <=? 90))%N.

(** [[-\*\+]] *)
Definition is_dash_star_plus (c : N) : bool :=
  ((c =? 45) || (c =? 42) || (c =? 43))%N.

Fixpoint lstrip (s : pystr) : pystr :=
  match s with
  | [] => []
  | c :: s' => if is_space c then lstrip s' else s
  end.

Fixpoint rstrip (s : pystr) : pystr :=
  match s with
  | [] => []
  | c :: s' =>
      match rstrip s' with
      | [] => if is_space c then [] else [c]
      | t => c :: t
      end
  end.

(** [s.strip()] *)
Definition strip (s : pystr) : pystr := rstrip (lstrip s).

(** [s.split()]: the maximal runs of non-whitespace code points, in order.
    [cur] is the run being read, reversed. *)
Fixpoint split_from (cur : pystr) (s : pystr) : list pystr :=
  match s with
  | [] => match cur with [] => [] | _ => [rev cur] end
  | c :: s' =>
      if is_space c
      then match cur with
           | [] => split_from [] s'
           | _ => rev cur :: split_from [] s'
           end
      else split_from (c :: cur) s'
  end.

Definition split (s : pystr) : list pystr := split_from [] s.

(** [s.replace(old, new)] for a one-character [old]. *)
Definition replace (old : N) (new : pystr) (s : pystr) : pystr :=
  flat_map (fun c => if (c =? old)%N then new else [c]) s.

(** [sep.join(parts)] *)
Fixpoint join (sep : pystr) (parts : list pystr) : pystr :=
  match parts with
  | [] => []
  | [p] => p
  | p :: rest => p ++ sep ++ join sep rest
  end.

(** [str(z)] for an integer. *)
Definition str_of_int (z : Z) : pystr :=
  py (NilZero.string_of_int (Z.to_int z)).

Definition len {A} (l : list A) : Z := Z.of_nat (length l).

(** [sum(l)] for a list of integers. *)
Definition sum (l : list Z) : Z := fold_left Z.add l 0.

(** ** Regular expressions

    The fragment of [re] the list patterns use: character classes,
    concatenation, alternation and repetition.  [re.match] asks whether some
    prefix of the subject is in the language of the pattern; the leading [^]
    of the patterns holds at position 0, where [re.match] starts. *)

Inductive regex :=
| Void
| Eps
| Class (p : N -> bool)
| Cat (r1 r2 : regex)
| Alt (r1 r2 : regex)
| Star (r : regex).

(** [r+] *)
Definition Plus (r : regex) : regex := Cat r (Star r).

Fixpoint nullable (r : regex) : bool :=
  match r with
  | Void => false
  | Eps => true
  | Class _ => false
  | Cat r1 r2 => nullable r1 && nullable r2
  | Alt r1 r2 => nullable r1 || nullable r2
  | Star _ => true
  end.

Fixpoint deriv (c : N) (r : regex) : regex :=
  match r with
  | Void => Void
  | Eps => Void
  | Class p => if p c then Eps else Void
  | Cat r1 r2 =>
      if nullable r1
      then Alt (Cat (deriv c r1) r2) (deriv c r2)
      else Cat (deriv c r1) r2
  | Alt r1 r2 => Alt (deriv c r1) (deriv c r2)
  | Star r1 => Cat (deriv c r1) (Star r1)
  end.

(** [re.match(r, s) is not None] *)
Fixpoint re_match (r : regex) (s : pystr) : bool :=
  nullable r ||
  match s with
  | [] => false
  | c :: s' => re_match (deriv c r) s'
  end.

(** The words of a pattern. *)
Inductive Lang : regex -> pystr -> Prop :=
| LEps : Lang Eps []
| LClass p c : p c = true -> Lang (Class p) [c]
| LCat r1 r2 w1 w2 : Lang r1 w1 -> Lang r2 w2 -> Lang (Cat r1 r2) (w1 ++ w2)
| LAltL r1 r2 w : Lang r1 w -> Lang (Alt r1 r2) w
| LAltR r1 r2 w : Lang r2 w -> Lang (Alt r1 r2) w
| LStarNil r : Lang (Star r) []
| LStarCons r w1 w2 : Lang r w1 -> Lang (Star r) w2 -> Lang (Star r) (w1 ++ w2).

(** ** Element types and numbers *)

Inductive ElementType :=
| TITLE
| SUBTITLE
| SECTION
| PARAGRAPH
| LIST_ITEM
| TABLE
| IMAGE.

(** [ElementType.value] *)
Definition value (t : ElementType) : string :=
  match t with
  | TITLE => "title"
  | SUBTITLE => "subtitle"
  | SECTION => "section"
  | PARAGRAPH => "paragraph"
  | LIST_ITEM => "list_item"
  | TABLE => "table"
  | IMAGE => "image"
  end.

#[global] Instance ElementType_eq_dec : EqDecision ElementType.
Proof. solve_decision. Defined.

Inductive pyfloat :=
| FFinite (q : Q)
| FInf (negative : bool)
| FNaN.

Inductive pyval :=
| PyInt (z : Z)
| PyFloat (f : pyfloat)
| PyStr (s : pystr).

#[global] Instance Q_eq_dec : EqDecision Q.
Proof. solve_decision. Defined.
#[global] Instance pyfloat_eq_dec : EqDecision pyfloat.
Proof. solve_decision. Defined.
#[global] Instance pyval_eq_dec : EqDecision pyval.
Proof. solve_decision. Defined.

(** [d[key]] *)
Definition getitem (d : gmap string pyval) (key : string) : result pyval :=
  match d !! key with
  | Some v => Ok v
  | None => Raise KeyError
  end.

(** [v & m] *)
Definition py_and (v : pyval) (m : Z) : result Z :=
  match v with
  | PyInt z => Ok (Z.land z m)
  | _ => Raise TypeError
  end.

(** [f >= n] for a float [f] and an integer [n]; false on NaN. *)
Definition float_ge (f : pyfloat) (n : Z) : bool :=
  match f with
  | FFinite q => Qle_bool (inject_Z n) q
  | FInf negative => negb negative
  | FNaN => false
  end.

(** [v >= n] *)
Definition py_ge (v : pyval) (n : Z) : result bool :=
  match v with
  | PyInt z => Ok (n <=? z)
  | PyFloat f => Ok (float_ge f n)
  | PyStr _ => Raise TypeError
  end.

(** ** The classifier *)

Definition ws : regex := Class is_space.

Definition list_patterns : list regex :=
  [ Cat (Star ws) (Cat (Class is_bullet) (Plus ws));
    Cat (Star ws) (Cat (Plus (Class is_decimal))
                       (Cat (Class is_dot_or_paren) (Plus ws)));
    Cat (Star ws) (Cat (Class is_ascii_letter)
                       (Cat (Class is_dot_or_paren) (Plus ws)));
    Cat (Star ws) (Cat (Class is_dash_star_plus) (Plus ws)) ].

Definition classify_items (text : pystr) (font_info : gmap string pyval)
  : result ElementType :=
  let text_stripped := strip text in
  let word_count := len (split text_stripped) in
  flags ← getitem font_info "flags";
  masked ← py_and flags 16;
  let is_bold := negb (masked =? 0) in
  if existsb (fun pattern => re_match pattern text_stripped) list_patterns
  then Ok LIST_ITEM
  else
    size ← getitem font_info "size";
    ge16 ← py_ge size 16;
    if ge16 && is_bold then Ok TITLE
    else
      ge14 ← py_ge size 14;
      if ge14 && (is_bold || (word_count <=? 10)) then Ok SUBTITLE
      else
        ge10 ← py_ge size 10;
        if ge10 && (word_count <=? 20) then Ok SECTION
        else Ok PARAGRAPH.

(** ** Floating point

    [binary64 q] is the double nearest to the rational [q], ties to even: the
    value of a float literal, of a correctly rounded quotient, and of the
    decimal-to-binary conversion that ends [round]. *)

Definition round_half_even (q : Q) : Z :=
  let f := Qfloor q in
  match Qcompare (q - inject_Z f) (1 # 2) with
  | Lt => f
  | Gt => f + 1
  | Eq => if Z.even f then f else f + 1
  end.

Definition pow2 (e : Z) : Q := Qpower 2 e.

(** The integer part of the binary logarithm of a positive rational. *)
Definition ilog2 (q : Q) : Z :=
  let e := Z.log2 (Qnum q) - Z.log2 (Zpos (Qden q)) in
  if Qle_bool (pow2 e) q then e else e - 1.

Definition binary64 (q : Q) : pyfloat :=
  if Qeq_bool q 0 then FFinite 0
  else
    let a := Qabs q in
    let e := Z.max (ilog2 a) (-1022) in
    let ulp := pow2 (e - 52) in
    let v := (inject_Z (round_half_even (a / ulp)) * ulp)%Q in
    if Qle_bool (pow2 1024) v then FInf (Qnum q <? 0)
    else FFinite (Qred (if Qnum q <? 0 then - v else v)).

(** Quotients at or beyond this bound round past the largest double. *)
Definition overflow_threshold : Q := pow2 1024 - pow2 970.

(** [a / b] for two integers: the correctly rounded quotient. *)
Definition py_truediv (a b : Z) : result pyfloat :=
  if b =? 0 then Raise ZeroDivisionError
  else
    let q := (inject_Z a / inject_Z b)%Q in
    if Qle_bool overflow_threshold (Qabs q) then Raise OverflowError
    else Ok (binary64 q).

(** [round(f, ndigits)] on a float: the decimal with [ndigits] places nearest
    to the exact value of [f] (ties to even), converted back to a double;
    NaN and the infinities round to themselves. *)
Definition py_round (f : pyfloat) (ndigits : Z) : pyfloat :=
  match f with
  | FFinite q =>
      let p := Qpower 10 ndigits in
      binary64 (inject_Z (round_half_even (q * p)) / p)
  | _ => f
  end.

(** ** Elements and statistics *)

Record Position := {
  x0 : pyfloat;
  y0 : pyfloat;
  x1 : pyfloat;
  y1 : pyfloat
}.

Record DocumentElement := {
  element_type : ElementType;
  content : pystr;
  page_number : Z;
  position : Position;
  font_info : gmap string pyval
}.

Record DocumentStatistics := {
  title_count : Z;
  section_count : Z;
  table_count : Z;
  image_count : Z;
  avg_text_density_per_page : pyval;
  avg_hierarchical_depth : pyval;
  avg_paragraph_length : pyval;
  section_distribution : gmap Z Z
}.

(** ** What the renderer hands over for one page *)

Record Span := {
  span_text : pystr;
  span_font : pystr;
  span_size : pyfloat;
  span_flags : Z
}.

(** A block of [page.get_text("dict")]; image blocks have no ["lines"]. *)
Record Block := {
  bbox : Position;
  lines : option (list (list Span))
}.

(** A table of [page.find_tables()]; a cell may be [None]. *)
Record Table := {
  table_bbox : Position;
  table_rows : list (list (option pystr))
}.

(** [image_list] holds the bounding box [page.get_image_bbox] gives for each
    image of [page.get_images(full=True)], in that order. *)
Record Page := {
  blocks : list Block;
  image_list : list Position;
  tables : list Table
}.

(** ** The page walk *)

(** One span of the inner loop: the text grows, and the first span fixes the
    font information. *)
Definition span_font_info (span : Span) : gmap string pyval :=
  {[ "name" := PyStr (span_font span);
     "size" := PyFloat (span_size span);
     "flags" := PyInt (span_flags span) ]}.

Definition collect_span (acc : pystr * gmap string pyval) (span : Span)
  : pystr * gmap string pyval :=
  (acc.1 ++ span_text span,
   if decide (acc.2 = ∅) then span_font_info span else acc.2).

Definition collect_block (ls : list (list Span)) : pystr * gmap string pyval :=
  fold_left (fun acc line => fold_left collect_span line acc) ls ([], ∅).

Definition newline : N := 10.
Definition tab : N := 9.

(** The body of the loop over blocks for a text block: [None] is the
    [continue] on a blank block. *)
Definition text_element (block : Block) (ls : list (list Span))
  (page_number : Z) : result (option DocumentElement) :=
  let text_content := (collect_block ls).1 in
  let font_info := (collect_block ls).2 in
  let position :=
    {| x0 := py_round (x0 (bbox block)) 4;
       y0 := py_round (y0 (bbox block)) 4;
       x1 := py_round (x1 (bbox block)) 4;
       y1 := py_round (y1 (bbox block)) 4 |} in
  match strip text_content with
  | [] => Ok None
  | _ =>
      element_type ← classify_items text_content font_info;
      Ok (Some {| element_type := element_type;
                  content := replace tab []
                               (replace newline (py " ") (strip text_content));
                  page_number := page_number;
                  position := position;
                  font_info := font_info |})
  end.

Fixpoint extract_blocks (bs : list Block) (page_number : Z)
  (elements : list DocumentElement) : result (list DocumentElement) :=
  match bs with
  | [] => Ok elements
  | block :: rest =>
      match lines block with
      | None => extract_blocks rest page_number elements
      | Some ls =>
          made ← text_element block ls page_number;
          match made with
          | None => extract_blocks rest page_number elements
          | Some element =>
              extract_blocks rest page_number (elements ++ [element])
          end
      end
  end.

Definition image_element (page_number : Z) (img_index : nat)
  (img_rect : Position) : DocumentElement :=
  {| element_type := IMAGE;
     content := py "Image_" ++ str_of_int page_number ++ py "_"
                ++ str_of_int (Z.of_nat img_index);
     page_number := page_number;
     position := img_rect;
     font_info := ∅ |}.

Definition table_element (page_number : Z) (table_index : nat)
  (table : Table) : DocumentElement :=
  let clean_table_data :=
    map (fun row => map (fun cell => default [] cell) row)
        (table_rows table) in
  let table_text := join [newline] (map (join [tab]) clean_table_data) in
  {| element_type := TABLE;
     content := table_text;
     page_number := page_number;
     position := table_bbox table;
     font_info := ∅ |}.

Definition _extract_page_elements (page : Page) (page_number : Z)
  : result (list DocumentElement) :=
  elements ← extract_blocks (blocks page) page_number [];
  let elements := elements ++ imap (image_element page_number) (image_list page) in
  let elements := elements ++ imap (table_element page_number) (tables page) in
  Ok elements.

(** The loop of [extract_structure] over [range(len(doc))]. *)
Fixpoint extract_pages (doc : list Page) (page_num : Z)
  (elements : list DocumentElement) : result (list DocumentElement) :=
  match doc with
  | [] => Ok elements
  | page :: rest =>
      page_elements ← _extract_page_elements page (page_num + 1);
      extract_pages rest (page_num + 1) (elements ++ page_elements)
  end.

(** ** The aggregation *)

(** [Counter(keys)] *)
Definition Counter (keys : list string) : gmap string Z :=
  fold_left (fun counts k => <[k := default 0 (counts !! k) + 1]> counts)
            keys ∅.

(** [d[k] += 1] on a [defaultdict(int)] *)
Definition increment (d : gmap Z Z) (k : Z) : gmap Z Z :=
  <[k := default 0 (d !! k) + 1]> d.

(** [sum(d.values())] *)
Definition sum_values (d : gmap Z Z) : Z :=
  map_fold (fun _ v acc => acc + v) 0 d.

Definition text_density_per_page (total_pages : Z)
  (elements : list DocumentElement) : list Z :=
  map (fun page_num =>
         let page_elements :=
           filter (fun e => page_number e = page_num) elements in
         sum (map (fun e => len (content e)) page_elements))
      (seqZ 1 total_pages).

Definition hierarchical_elements (elements : list DocumentElement)
  : list DocumentElement :=
  filter (fun e => element_type e ∈ [TITLE; SUBTITLE; SECTION]) elements.

Definition hierarchical_counts_per_page (elements : list DocumentElement)
  : gmap Z Z :=
  fold_left (fun d elem => increment d (page_number elem))
            (hierarchical_elements elements) ∅.

Definition paragraphs (elements : list DocumentElement)
  : list DocumentElement :=
  filter (fun e => element_type e = PARAGRAPH) elements.

Definition section_distribution_of (elements : list DocumentElement)
  : gmap Z Z :=
  fold_left (fun d elem =>
               if decide (element_type elem = SECTION)
               then increment d (page_number elem)
               else d)
            elements ∅.

Definition _generate_statistics (total_pages : Z)
  (elements : list DocumentElement) : result DocumentStatistics :=
  let element_counts :=
    Counter (map (fun elem => value (element_type elem)) elements) in
  let title_count := default 0 (element_counts !! value TITLE) in
  let section_count := default 0 (element_counts !! value SECTION) in
  let table_count := default 0 (element_counts !! value TABLE) in
  let image_count := default 0 (element_counts !! value IMAGE) in
  let density := text_density_per_page total_pages elements in
  density_mean ← py_truediv (sum density) (len density);
  let avg_text_density_per_page := PyFloat (py_round density_mean 2) in
  let counts := hierarchical_counts_per_page elements in
  avg_hierarchical_depth ←
    (if decide (size counts ≠ 0%nat)
     then depth_mean ← py_truediv (sum_values counts) (Z.of_nat (size counts));
          Ok (PyFloat (py_round depth_mean 2))
     else Ok (PyInt 0));
  avg_paragraph_length ←
    (match paragraphs elements with
     | [] => Ok (PyInt 0)
     | ps =>
         words_mean ←
           py_truediv (sum (map (fun p => len (split (content p))) ps))
                      (len ps);
         Ok (PyFloat (py_round words_mean 2))
     end);
  Ok {| title_count := title_count;
        section_count := section_count;
        table_count := table_count;
        image_count := image_count;
        avg_text_density_per_page := avg_text_density_per_page;
        avg_hierarchical_depth := avg_hierarchical_depth;
        avg_paragraph_length := avg_paragraph_length;
        section_distribution := section_distribution_of elements |}.

(** [extract_structure] on an opened document, given as its pages. *)
Definition extract_structure (doc : list Page)
  : result (list DocumentElement * DocumentStatistics) :=
  elements ← extract_pages doc 0 [];
  stats ← _generate_statistics (len doc) elements;
  Ok (elements, stats).

(** ** Storage: the [elements] table and its query *)

Record Row := {
  row_id : Z;
  row_element_type : string;
  row_content : pystr;
  row_page_number : Z;
  position_x0 : pyfloat;
  position_y0 : pyfloat;
  position_x1 : pyfloat;
  position_y1 : pyfloat
}.

(** The rows [save_document] inserts for the elements of a document, in list
    order, the first of them under the key [first_id]. *)
Definition save_rows (first_id : Z) (elements : list DocumentElement)
  : list Row :=
  imap (fun i elem =>
          {| row_id := first_id + Z.of_nat i;
             row_element_type := value (element_type elem);
             row_content := content elem;
             row_page_number := page_number elem;
             position_x0 := x0 (position elem);
             position_y0 := y0 (position elem);
             position_x1 := x1 (position elem);
             position_y1 := y1 (position elem) |})
       elements.

(** The order of SQLite on REAL values; NaN is stored as NULL, which is
    below every number. *)
Definition real_le (a b : pyfloat) : bool :=
  match a, b with
  | FNaN, _ => true
  | _, FNaN => false
  | FInf true, _ => true
  | _, FInf true => false
  | _, FInf false => true
  | FInf false, _ => false
  | FFinite p, FFinite q => Qle_bool p q
  end.

(** [ORDER BY e.page_number, e.position_y0 DESC]: [r1] may come before [r2]. *)
Definition row_before (r1 r2 : Row) : bool :=
  (row_page_number r1 <? row_page_number r2)
  || ((row_page_number r1 =? row_page_number r2)
      && real_le (position_y0 r2) (position_y0 r1)).

Fixpoint insert_row (r : Row) (sorted : list Row) : list Row :=
  match sorted with
  | [] => [r]
  | h :: t => if row_before r h then r :: sorted else h :: insert_row r t
  end.

(** Rows with equal keys, whose order SQL leaves open, keep the order in
    which they were stored. *)
Definition order_by (rows : list Row) : list Row := foldr insert_row [] rows.

(** [get_document_elements] over the rows of one document: the optional
    filters apply when the argument is truthy, then the rows are ordered. *)
Definition get_document_elements (rows : list Row)
  (element_type : option string) (page_number : option Z) : list Row :=
  let rows :=
    match element_type with
    | Some t => if decide (t = EmptyString) then rows
                else filter (fun r => row_element_type r = t) rows
    | None => rows
    end in
  let rows :=
    match page_number with
    | Some n => if decide (n = 0) then rows
                else filter (fun r => row_page_number r = n) rows
    | None => rows
    end in
  order_by rows.

(** ** The specification's vocabulary *)

(** A recognised list marker at the start of a string: a bullet glyph and a
    whitespace; digits, then [.] or [)], then a whitespace; one letter, then
    [.] or [)], then a whitespace; or one of [-], [*], [+] and a whitespace. *)
Inductive list_marker : pystr -> Prop :=
| marker_bullet c w rest :
    is_bullet c = true -> is_space w = true -> list_marker (c :: w :: rest)
| marker_number d ds p w rest :
    Forall (fun c => is_decimal c = true) (d :: ds) ->
    is_dot_or_paren p = true -> is_space w = true ->
    list_marker ((d :: ds) ++ p :: w :: rest)
| marker_letter c p w rest :
    is_ascii_letter c = true -> is_dot_or_paren p = true ->
    is_space w = true -> list_marker (c :: p :: w :: rest)
| marker_dash c w rest :
    is_dash_star_plus c = true -> is_space w = true ->
    list_marker (c :: w :: rest).

Definition numeric (v : pyval) : Prop :=
  match v with
  | PyInt _ | PyFloat _ => True
  | PyStr _ => False
  end.

(** Font information with a numeric [size] and an integer [flags]. *)
Definition well_formed (font_info : gmap string pyval) : Prop :=
  (exists z, font_info !! "flags" = Some (PyInt z))
  /\ (exists v, font_info !! "size" = Some v /\ numeric v).

(** The text of a block: its runs concatenated in emission order. *)
Definition run_text (ls : list (list Span)) : pystr :=
  concat (map span_text (concat ls)).

(** The content the specification describes for a text block: stripped, and
    each newline and each tab turned into one space. *)
Definition content_with_spaces (ls : list (list Span)) : pystr :=
  replace tab (py " ") (replace newline (py " ") (strip (run_text ls))).

(** The element a block contributes to its page, if any. *)
Definition block_element (page_number : Z) (block : Block)
  : option DocumentElement :=
  match lines block with
  | Some ls =>
      match text_element block ls page_number with
      | Ok made => made
      | Raise _ => None
      end
  | None => None
  end.

(** How often [k] is in [keys]. *)
Definition occurrences `{EqDecision K} (k : K) (keys : list K) : Z :=
  len (filter (fun x => x = k) keys).

(** [d[k] += 1] for each key in turn. *)
Definition tally (keys : list Z) (d : gmap Z Z) : gmap Z Z :=
  fold_left increment keys d.

(** The map from a page to the summed content length of its elements. *)
Definition page_lengths (es : list DocumentElement) : gmap Z Z :=
  fold_left
    (fun m e =>
       <[page_number e := default 0 (m !! page_number e) + len (content e)]> m)
    es ∅.

(** The summed content length of the pages [1..page_count]; a page absent
    from the map counts 0. *)
Definition density_total (page_count : Z) (es : list DocumentElement) : Z :=
  sum (map (fun p => default 0 (page_lengths es !! p)) (seqZ 1 page_count)).

(** A hierarchical type: title, subtitle or section. *)
Definition hierarchical (t : ElementType) : Prop :=
  t = TITLE \/ t = SUBTITLE \/ t = SECTION.

#[global] Instance hierarchical_dec t : Decision (hierarchical t).
Proof. unfold hierarchical. apply _. Defined.

(** The number of elements of a hierarchical type on page [p]. *)
Definition hierarchical_on_page (es : list DocumentElement) (p : Z) : Z :=
  len (filter (fun e => page_number e = p /\ hierarchical (element_type e))
         es).

(** The pages that hold at least one element of a hierarchical type. *)
Definition hierarchical_pages (es : list DocumentElement) : gset Z :=
  list_to_set (filter (fun p => 1 <= hierarchical_on_page es p)
                 (map page_number es)).

(** The per-page counts summed over the pages that have any. *)
Definition depth_total (es : list DocumentElement) : Z :=
  sum (map (hierarchical_on_page es) (elements (hierarchical_pages es))).

(** The number of elements plus the number of characters they hold. *)
Definition document_size (es : list DocumentElement) : Z :=
  sum (map (fun e => 1 + len (content e)) es).

(** A bound every element list held in memory meets by a wide margin: sizes
    are below [2^63] there. *)
Definition fits_in_memory (es : list DocumentElement) : Prop :=
  document_size es < 2 ^ 1023.

(** ** Sample data *)

Definition origin : Position :=
  {| x0 := FFinite 0; y0 := FFinite 0; x1 := FFinite 0; y1 := FFinite 0 |}.

Definition sample_element (t : ElementType) (text : string) (page : Z)
  : DocumentElement :=
  {| element_type := t;
     content := py text;
     page_number := page;
     position := origin;
     font_info := ∅ |}.

(** One [section] element on page 2. *)
Definition one_section : list DocumentElement :=
  [sample_element SECTION "abc def" 2].

(** What the aggregation returns for [one_section] and five pages. *)
Definition one_section_statistics : DocumentStatistics :=
  {| title_count := 0;
     section_count := 1;
     table_count := 0;
     image_count := 0;
     avg_text_density_per_page := PyFloat (binary64 (14 # 10));
     avg_hierarchical_depth := PyFloat (FFinite 1);
     avg_paragraph_length := PyInt 0;
     section_distribution := {[ 2 := 1 ]} |}.

(** A block whose only run holds a tab between two letters. *)
Definition tabbed_lines : list (list Span) :=
  [[ {| span_text := [97; 9; 98]%N;
        span_font := py "Helvetica";
        span_size := FFinite 12;
        span_flags := 0 |} ]].

Definition tabbed_block : Block :=
  {| bbox := origin; lines := Some tabbed_lines |}.

(** [r1] may stand before [r2] in the answer of the query. *)
Definition comes_before (r1 r2 : Row) : Prop := row_before r1 r2 = true.

(** A text block of one run at height [y]. *)
Definition text_block (y : Q) (text : string) : Block :=
  {| bbox := {| x0 := FFinite 72; y0 := FFinite y;
                x1 := FFinite 300; y1 := FFinite (y + 12) |};
     lines := Some [[ {| span_text := py text;
                         span_font := py "Helvetica";
                         span_size := FFinite 12;
                         span_flags := 0 |} ]] |}.

(** A page the renderer emits top block first, in a coordinate space whose
    [y0] grows down the page. *)
Definition two_block_page : Page :=
  {| blocks := [text_block 10 "first"; text_block 20 "second"];
     image_list := [];
     tables := [] |}.

(** Two elements the aggregation cannot tell apart: they agree on type,
    content and page number. *)
Definition same_reading (e e' : DocumentElement) : Prop :=
  element_type e = element_type e'
  /\ content e = content e'
  /\ page_number e = page_number e'.

(** The heading level of a text element: the higher, the more prominent. *)
Definition heading_rank (t : ElementType) : Z :=
  match t with
  | TITLE => 3
  | SUBTITLE => 2
  | SECTION => 1
  | _ => 0
  end.

(** The elements of one page, by kind, in the order of the page walk. *)
Definition page_items (page : Page) (page_number : Z) : list DocumentElement :=
  omap (block_element page_number) (blocks page)
  ++ imap (image_element page_number) (image_list page)
  ++ imap (table_element page_number) (tables page).

(** The elements of the pages of a document that follow page [page_num]. *)
Fixpoint document_items (doc : list Page) (page_num : Z)
  : list DocumentElement :=
  match doc with
  | [] => []
  | page :: rest =>
      page_items page (page_num + 1) ++ document_items rest (page_num + 1)
  end.

(** [e] is on a page no later than the page of [e']. *)
Definition page_le (e e' : DocumentElement) : Prop :=
  page_number e <= page_number e'.

(** The mean word count of a list of paragraphs, as the aggregation forms
    it. *)
Definition paragraph_mean (ps : list DocumentElement) : result pyval :=
  match ps with
  | [] => Ok (PyInt 0)
  | _ =>
      words_mean ←
        py_truediv (sum (map (fun p => len (split (content p))) ps)) (len ps);
      Ok (PyFloat (py_round words_mean 2))
  end.

(** The number of [section] elements on page [p]. *)
Definition sections_on_page (es : list DocumentElement) (p : Z) : Z :=
  len (filter (fun e => page_number e = p)
         (filter (fun e => element_type e = SECTION) es)).

(** ** The database behind [DocumentStorage]

    The tables [documents], [elements] and [document_statistics] as lists of
    rows in insertion order; the timestamp columns are left out. *)

Record DocumentRow := {
  document_row_id : Z;
  document_uuid : string;
  filename : pystr
}.

(** A row of [elements] with its [document_id] column. *)
Record ElementRow := {
  document_id : Z;
  element_row : Row
}.

Record Database := {
  documents : list DocumentRow;
  elements_table : list ElementRow;
  statistics_table : list (Z * DocumentStatistics)
}.

(** The key [AUTOINCREMENT] gives the next row of a table that never loses
    rows. *)
Definition next_id (ids : list Z) : Z := 1 + foldr Z.max 0 ids.

(** The values SQLite takes for an [INTEGER]: signed 64-bit.  Binding any
    other Python [int] raises [OverflowError]. *)
Definition sqlite_integer (z : Z) : Prop := - 2 ^ 63 <= z < 2 ^ 63.

#[global] Instance sqlite_integer_dec z : Decision (sqlite_integer z).
Proof. unfold sqlite_integer. apply _. Defined.

(** A code point UTF-8 can encode: at most U+10FFFF and outside the
    surrogates U+D800..U+DFFF. *)
Definition unicode_scalar (c : N) : Prop :=
  ((c < 55296)%N \/ (57343 < c)%N) /\ (c <= 1114111)%N.

#[global] Instance unicode_scalar_dec c : Decision (unicode_scalar c).
Proof. unfold unicode_scalar. apply _. Defined.

(** The strings SQLite takes for a [TEXT]: binding a [str] encodes it as
    UTF-8, which raises [UnicodeEncodeError] on a lone surrogate. *)
Definition utf8_encodable (s : pystr) : Prop := Forall unicode_scalar s.

#[global] Instance utf8_encodable_dec s : Decision (utf8_encodable s).
Proof. unfold utf8_encodable. apply _. Defined.

(** The values that can be bound to a parameter of a statement.  A NaN is
    bound as NULL. *)
Definition bindable (v : pyval) : Prop :=
  match v with
  | PyInt z => sqlite_integer z
  | PyFloat _ => True
  | PyStr s => utf8_encodable s
  end.

#[global] Instance bindable_dec v : Decision (bindable v).
Proof. destruct v; simpl; apply _. Defined.

(** The [INSERT INTO documents] goes through: the file name can be bound and
    the table has a key left. *)
Definition document_row_accepted (db : Database) (original_filename : pystr)
  : Prop :=
  utf8_encodable original_filename
  /\ sqlite_integer (next_id (map document_row_id (documents db))).

(** The [executemany] on [elements] goes through: the content and the page
    number of every element can be bound, and the table has keys left for
    all of them. *)
Definition element_rows_accepted (db : Database)
  (elements : list DocumentElement) : Prop :=
  Forall (fun elem => utf8_encodable (content elem)
                      /\ sqlite_integer (page_number elem)) elements
  /\ Forall (fun r => sqlite_integer (row_id r))
        (save_rows
           (next_id (map (fun e => row_id (element_row e))
                         (elements_table db)))
           elements).

(** The [INSERT INTO document_statistics] goes through: the four counts and
    the three means can be bound.  [json.dumps] turns every dictionary from
    integers to integers into an ASCII string. *)
Definition statistics_row_accepted (stats : DocumentStatistics) : Prop :=
  sqlite_integer (title_count stats)
  /\ sqlite_integer (section_count stats)
  /\ sqlite_integer (table_count stats)
  /\ sqlite_integer (image_count stats)
  /\ bindable (avg_text_density_per_page stats)
  /\ bindable (avg_hierarchical_depth stats)
  /\ bindable (avg_paragraph_length stats).

#[global] Instance document_row_accepted_dec db original_filename :
  Decision (document_row_accepted db original_filename).
Proof. unfold document_row_accepted. apply _. Defined.

#[global] Instance element_rows_accepted_dec db elements :
  Decision (element_rows_accepted db elements).
Proof. unfold element_rows_accepted. apply _. Defined.

#[global] Instance statistics_row_accepted_dec stats :
  Decision (statistics_row_accepted stats).
Proof. unfold statistics_row_accepted. apply _. Defined.

(** [save_document] with the UUID it drew.  [None] is an exception of one of
    the three statements, after the rollback that leaves the tables as they
    were: [IntegrityError] when the UUID is in the [UNIQUE] column already,
    [UnicodeEncodeError] when a text cannot be encoded, [OverflowError] when
    an integer is outside 64 bits, [OperationalError] when a table has no key
    left.  The file and the memory are taken to hold what is written: the
    limits of the machine and the length limit of the SQLite library are
    outside the model, as is the key of the statistics row, which no query
    reads. *)
Definition save_document (db : Database) (uuid : string)
  (original_filename : pystr) (elements : list DocumentElement)
  (stats : DocumentStatistics) : option (Database * string) :=
  if decide (uuid ∈ map document_uuid (documents db)) then None
  else if decide (document_row_accepted db original_filename
                  /\ element_rows_accepted db elements
                  /\ statistics_row_accepted stats)
  then
    let new_document_id := next_id (map document_row_id (documents db)) in
    let first_id :=
      next_id (map (fun e => row_id (element_row e)) (elements_table db)) in
    Some ({| documents :=
               documents db
               ++ [{| document_row_id := new_document_id;
                      document_uuid := uuid;
                      filename := original_filename |}];
             elements_table :=
               elements_table db
               ++ map (fun r => {| document_id := new_document_id;
                                   element_row := r |})
                      (save_rows first_id elements);
             statistics_table :=
               statistics_table db ++ [(new_document_id, stats)] |},
          uuid)
  else None.

(** [get_document_by_uuid]: the first row [fetchone] gives, if any. *)
Definition get_document_by_uuid (db : Database) (uuid : string)
  : option DocumentRow :=
  head (filter (fun d => document_uuid d = uuid) (documents db)).

(** [FROM elements e JOIN documents d ON e.document_id = d.id
     WHERE d.document_uuid = ?] *)
Definition joined_rows (db : Database) (uuid : string) : list Row :=
  flat_map
    (fun e =>
       map (fun _ => element_row e)
           (filter (fun d => document_row_id d = document_id e
                             /\ document_uuid d = uuid)
                   (documents db)))
    (elements_table db).

(** [get_document_elements] as the storage object answers it. *)
Definition stored_document_elements (db : Database) (uuid : string)
  (element_type : option string) (page_number : option Z) : list Row :=
  get_document_elements (joined_rows db uuid) element_type page_number.

(** [get_element_type_summary]: the number of stored elements of each type
    that occurs. *)
Definition get_element_type_summary (db : Database) : gmap string Z :=
  Counter (map (fun e => row_element_type (element_row e))
               (elements_table db)).

(** What the tables of a database keep true: keys and UUIDs occur once, and
    every element row belongs to a document. *)
Definition consistent (db : Database) : Prop :=
  NoDup (map document_row_id (documents db))
  /\ NoDup (map document_uuid (documents db))
  /\ Forall (fun e => document_id e ∈ map document_row_id (documents db))
            (elements_table db).

Definition empty_database : Database :=
  {| documents := []; elements_table := []; statistics_table := [] |}.

(** A filter argument that is given and truthy. *)
Definition row_matches (element_type : option string)
  (page_number : option Z) (r : Row) : Prop :=
  (forall t, element_type = Some t -> t <> EmptyString ->
             row_element_type r = t)
  /\ (forall n, page_number = Some n -> n <> 0 -> row_page_number r = n).

(** The database after one document was saved into the empty one. *)
Definition one_document_database : Database :=
  match save_document empty_database "u1" (py "a.pdf") one_section
          one_section_statistics with
  | Some (db', _) => db'
  | None => empty_database
  end.

(** ** Dictionaries for serialisation *)

(** The values the two [to_dict] methods put into their dictionaries. *)
Inductive pyobj :=
| ObjStr (s : pystr)
| ObjNumber (v : pyval)
| ObjPosition (p : Position)
| ObjFont (f : gmap string pyval)
| ObjDistribution (d : gmap Z Z).

(** [DocumentElement.to_dict] *)
Definition element_to_dict (e : DocumentElement) : gmap string pyobj :=
  {[ "element_type" := ObjStr (py (value (element_type e)));
     "content" := ObjStr (content e);
     "page_number" := ObjNumber (PyInt (page_number e));
     "position" := ObjPosition (position e);
     "font_info" := ObjFont (font_info e) ]}.

(** [DocumentStatistics.to_dict] *)
Definition statistics_to_dict (st : DocumentStatistics) : gmap string pyobj :=
  {[ "title_count" := ObjNumber (PyInt (title_count st));
     "section_count" := ObjNumber (PyInt (section_count st));
     "table_count" := ObjNumber (PyInt (table_count st));
     "image_count" := ObjNumber (PyInt (image_count st));
     "avg_text_density_per_page" := ObjNumber (avg_text_density_per_page st);
     "avg_hierarchical_depth" := ObjNumber (avg_hierarchical_depth st);
     "avg_paragraph_length" := ObjNumber (avg_paragraph_length st);
     "section_distribution" := ObjDistribution (section_distribution st) ]}.

(** Two paragraphs, a title and two sections on pages 1 and 3, an image on
    page 2. *)
Definition mixed_elements : list DocumentElement :=
  [sample_element PARAGRAPH "one two" 1;
   sample_element PARAGRAPH "three" 1;
   sample_element TITLE "Report" 1;
   sample_element IMAGE "Image_2_0" 2;
   sample_element SECTION "Scope" 1;
   sample_element SECTION "Method" 3].

(** What the aggregation returns for [mixed_elements] and three pages. *)
Definition mixed_statistics : DocumentStatistics :=
  match _generate_statistics 3 mixed_elements with
  | Ok st => st
  | Raise _ => one_section_statistics
  end.

(** The words of the paragraphs of a document: every element is visited, one
    of another type adds nothing. *)
Definition paragraph_words (es : list DocumentElement) : Z :=
  sum (map (fun e => if decide (element_type e = PARAGRAPH)
                     then len (split (content e)) else 0) es).

(** The number of paragraphs of a document. *)
Definition paragraph_count (es : list DocumentElement) : Z :=
  sum (map (fun e => if decide (element_type e = PARAGRAPH) then 1 else 0)
         es).

(** ** The aggregation on a store of objects *)

(** The objects [_generate_statistics] reads or makes: the list of elements
    the caller passes and the lists the comprehensions build, the list of
    page densities, the [Counter] and the two [defaultdict(int)]. *)
Inductive object :=
| ElementList (es : list DocumentElement)
| IntList (l : list Z)
| StrCounts (d : gmap string Z)
| PageCounts (d : gmap Z Z).

(** The objects alive, by reference. *)
Abbreviation store := (gmap positive object).

(** A computation on the store returns or raises, and leaves a store. *)
Definition run (A : Type) : Type := store -> result A * store.

#[global] Instance run_ret : MRet run := fun A a h => (Ok a, h).

#[global] Instance run_bind : MBind run := fun A B k m h =>
  match m h with
  | (Ok a, h') => k a h'
  | (Raise e, h') => (Raise e, h')
  end.

(** An expression that does not touch the store. *)
Definition lift {A} (r : result A) : run A := fun h => (r, h).

(** A new object, under a reference not in use. *)
Definition new (o : object) : run positive := fun h =>
  let l := fresh (dom h) in (Ok l, <[l := o]> h).

Definition get_elements (l : positive) : run (list DocumentElement) :=
  fun h => match h !! l with
           | Some (ElementList es) => (Ok es, h)
           | _ => (Raise TypeError, h)
           end.

Definition get_ints (l : positive) : run (list Z) :=
  fun h => match h !! l with
           | Some (IntList xs) => (Ok xs, h)
           | _ => (Raise TypeError, h)
           end.

Definition get_str_counts (l : positive) : run (gmap string Z) :=
  fun h => match h !! l with
           | Some (StrCounts d) => (Ok d, h)
           | _ => (Raise TypeError, h)
           end.

Definition get_page_counts (l : positive) : run (gmap Z Z) :=
  fun h => match h !! l with
           | Some (PageCounts d) => (Ok d, h)
           | _ => (Raise TypeError, h)
           end.

(** The object under [l] changes in place. *)
Definition put (l : positive) (o : object) : run unit := fun h =>
  (Ok tt, <[l := o]> h).

(** [xs.append(x)] *)
Definition append (l : positive) (x : Z) : run unit :=
  xs ← get_ints l; put l (IntList (xs ++ [x])).

(** One more occurrence of [k] in a [Counter]. *)
Definition count (l : positive) (k : string) : run unit :=
  d ← get_str_counts l;
  put l (StrCounts (<[k := default 0 (d !! k) + 1]> d)).

(** [d[k] += 1] on a [defaultdict(int)] *)
Definition add_one (l : positive) (k : Z) : run unit :=
  d ← get_page_counts l; put l (PageCounts (increment d k)).

(** [for x in xs: body] *)
Fixpoint for_each {A} (xs : list A) (body : A -> run unit) : run unit :=
  match xs with
  | [] => mret tt
  | x :: xs => _ ← body x; for_each xs body
  end.

(** [_generate_statistics] statement by statement; [elements] is the
    reference the caller passes. *)
Definition run_generate_statistics (total_pages : Z) (elements : positive)
  : run DocumentStatistics :=
  element_counts ← new (StrCounts ∅);
  es ← get_elements elements;
  _ ← for_each es
        (fun elem => count element_counts (value (element_type elem)));
  counts ← get_str_counts element_counts;
  let title_count := default 0 (counts !! value TITLE) in
  let section_count := default 0 (counts !! value SECTION) in
  let table_count := default 0 (counts !! value TABLE) in
  let image_count := default 0 (counts !! value IMAGE) in
  text_density_per_page ← new (IntList []);
  _ ← for_each (seqZ 1 total_pages)
        (fun page_num =>
           es ← get_elements elements;
           page_elements ←
             new (ElementList
                    (filter (fun e => page_number e = page_num) es));
           page_items ← get_elements page_elements;
           let page_text_length :=
             sum (map (fun e => len (content e)) page_items) in
           append text_density_per_page page_text_length);
  density ← get_ints text_density_per_page;
  density_mean ← lift (py_truediv (sum density) (len density));
  let avg_text_density_per_page := PyFloat (py_round density_mean 2) in
  es ← get_elements elements;
  hierarchical_elements ←
    new (ElementList
           (filter (fun e => element_type e ∈ [TITLE; SUBTITLE; SECTION])
                   es));
  hierarchical_counts_per_page ← new (PageCounts ∅);
  hierarchical_items ← get_elements hierarchical_elements;
  _ ← for_each hierarchical_items
        (fun elem => add_one hierarchical_counts_per_page (page_number elem));
  counts ← get_page_counts hierarchical_counts_per_page;
  avg_hierarchical_depth ←
    lift (if decide (size counts ≠ 0%nat)
          then depth_mean ←
                 py_truediv (sum_values counts) (Z.of_nat (size counts));
               Ok (PyFloat (py_round depth_mean 2))
          else Ok (PyInt 0));
  es ← get_elements elements;
  paragraphs ←
    new (ElementList (filter (fun e => element_type e = PARAGRAPH) es));
  paragraph_items ← get_elements paragraphs;
  avg_paragraph_length ←
    lift (match paragraph_items with
          | [] => Ok (PyInt 0)
          | ps =>
              words_mean ←
                py_truediv (sum (map (fun p => len (split (content p))) ps))
                           (len ps);
              Ok (PyFloat (py_round words_mean 2))
          end);
  section_distribution ← new (PageCounts ∅);
  es ← get_elements elements;
  _ ← for_each es
        (fun elem =>
           if decide (element_type elem = SECTION)
           then add_one section_distribution (page_number elem)
           else mret tt);
  distribution ← get_page_counts section_distribution;
  _ ← new (PageCounts distribution);
  mret {| title_count := title_count;
          section_count := section_count;
          table_count := table_count;
          image_count := image_count;
          avg_text_density_per_page := avg_text_density_per_page;
          avg_hierarchical_depth := avg_hierarchical_depth;
          avg_paragraph_length := avg_paragraph_length;
          section_distribution := distribution |}.


(** A store with [mixed_elements] and a list of integers, and one with
    [mixed_elements] alone under another reference. *)
Definition two_lists : store :=
  {[ 1%positive := ElementList mixed_elements; 2%positive := IntList [7] ]}.

Definition one_list : store := {[ 5%positive := ElementList mixed_elements ]}.

(** What holds of the outcome of [m] started in [h]. *)
Definition outcome {A} (m : run A) (h : store)
  (post : result A -> store -> Prop) : Prop :=
  post (fst (m h)) (snd (m h)).

(** * Properties *)

Example classify_dash :
  classify_items (py "  - first point")
    {[ "size" := PyFloat (FFinite 30); "flags" := PyInt 16 ]} = Ok LIST_ITEM.
Proof. vm_compute. reflexivity. Qed.

Example classify_title :
  classify_items (py "Annual report")
    {[ "size" := PyFloat (FFinite 18); "flags" := PyInt 20 ]} = Ok TITLE.
Proof. vm_compute. reflexivity. Qed.

Example classify_missing_flags :
  classify_items (py "- x") {[ "size" := PyInt 12 ]} = Raise KeyError.
Proof. vm_compute. reflexivity. Qed.

Example split_words :
  split (strip (py "  a bc   d ")) = [py "a"; py "bc"; py "d"].
Proof. reflexivity. Qed.

Example image_content : content (image_element 3 0 origin) = py "Image_3_0".
Proof. reflexivity. Qed.

Example table_content :
  content (table_element 1 0
             {| table_bbox := origin;
                table_rows := [[Some (py "a"); None]; [Some (py "b")]] |})
  = [97; 9; 10; 98]%N.
Proof. reflexivity. Qed.

Example truediv_1_200 :
  (f ← py_truediv 1 200; Ok (py_round f 2)) = Ok (binary64 (1 # 100)).
Proof. vm_compute. reflexivity. Qed.

Example round_eighth : py_round (FFinite (1 # 8)) 2 = binary64 (12 # 100).
Proof. vm_compute. reflexivity. Qed.

Example truediv_by_zero : py_truediv 7 0 = Raise ZeroDivisionError.
Proof. reflexivity. Qed.

(** ** Regular expressions: the matcher against the language *)

Lemma nullable_Lang r : nullable r = true <-> Lang r [].
Proof.
  split.
  - induction r; simpl; intros H; try discriminate.
    + constructor.
    + apply andb_true_iff in H as [H1 H2].
      change (@nil N) with (@nil N ++ @nil N). constructor; auto.
    + apply orb_true_iff in H as [H|H]; [apply LAltL|apply LAltR]; auto.
    + constructor.
  - intros H. remember [] as w eqn:Hw. induction H; simpl; subst; auto.
    + discriminate.
    + apply app_eq_nil in Hw as [-> ->]. rewrite IHLang1, IHLang2; auto.
    + rewrite IHLang; auto.
    + rewrite IHLang; auto using orb_true_r.
Qed.

Lemma Lang_cat_inv r1 r2 w :
  Lang (Cat r1 r2) w -> exists w1 w2, w = w1 ++ w2 /\ Lang r1 w1 /\ Lang r2 w2.
Proof. intros H. inversion H; subst. eauto. Qed.

Lemma Lang_alt_inv r1 r2 w : Lang (Alt r1 r2) w -> Lang r1 w \/ Lang r2 w.
Proof. intros H. inversion H; subst; auto. Qed.

Lemma Lang_cat_cons r1 r2 c w1 w2 :
  Lang r1 (c :: w1) -> Lang r2 w2 -> Lang (Cat r1 r2) (c :: w1 ++ w2).
Proof. intros. change (c :: w1 ++ w2) with ((c :: w1) ++ w2). by constructor. Qed.

Lemma Lang_star_cons r c w :
  Lang (Star r) (c :: w) ->
  exists w1 w2, w = w1 ++ w2 /\ Lang r (c :: w1) /\ Lang (Star r) w2.
Proof.
  intros H. remember (Star r) as sr eqn:Hs. remember (c :: w) as cw eqn:Hw.
  revert c w Hw.
  induction H; intros c0 w0 Hw; try discriminate.
  inversion Hs; subst r0. destruct w1 as [|a w1].
  - simpl in Hw. apply IHLang2; auto.
  - simpl in Hw. inversion Hw; subst. exists w1, w2. auto.
Qed.

Lemma deriv_Lang c r : forall w, Lang (deriv c r) w <-> Lang r (c :: w).
Proof.
  induction r; intros w; simpl.
  - split; intros H; inversion H.
  - split; intros H; inversion H.
  - destruct (p c) eqn:Hp; split; intros H; inversion H; subst.
    + by constructor.
    + constructor.
    + congruence.
  - split.
    + intros H.
      assert (Lang (Cat (deriv c r1) r2) w -> Lang (Cat r1 r2) (c :: w)) as Hcat.
      { intros (w1 & w2 & -> & H1 & H2)%Lang_cat_inv.
        apply Lang_cat_cons; [by apply IHr1|done]. }
      destruct (nullable r1) eqn:Hn; [|by auto].
      apply Lang_alt_inv in H as [H|H]; [by auto|].
      change (c :: w) with ([] ++ c :: w).
      constructor; [by apply nullable_Lang|by apply IHr2].
    + intros (w1 & w2 & E & H1 & H2)%Lang_cat_inv.
      destruct w1 as [|a w1]; simpl in E.
      * subst w2. apply nullable_Lang in H1. rewrite H1.
        apply LAltR. by apply IHr2.
      * injection E as <- ->.
        assert (Lang (Cat (deriv c r1) r2) (w1 ++ w2))
          by (constructor; [by apply IHr1|done]).
        destruct (nullable r1); [by apply LAltL|done].
  - split; intros [H|H]%Lang_alt_inv.
    + apply LAltL. by apply IHr1.
    + apply LAltR. by apply IHr2.
    + apply LAltL. by apply IHr1.
    + apply LAltR. by apply IHr2.
  - split.
    + intros (w1 & w2 & -> & H1 & H2)%Lang_cat_inv.
      change (c :: w1 ++ w2) with ((c :: w1) ++ w2).
      constructor; [by apply IHr|done].
    + intros H. apply Lang_star_cons in H as (w1 & w2 & -> & H1 & H2).
      constructor; [by apply IHr|done].
Qed.

(** [re_match] succeeds exactly when a prefix of the subject is a word of the
    pattern. *)
Lemma re_match_spec r s :
  re_match r s = true <-> exists p q, s = p ++ q /\ Lang r p.
Proof.
  revert r. induction s as [|c s IH]; intros r; simpl.
  - rewrite orb_false_r, nullable_Lang. split.
    + intros H. by exists [], [].
    + intros (p & q & E & H). symmetry in E.
      apply app_eq_nil in E as [-> _]. done.
  - rewrite orb_true_iff, nullable_Lang, IH. split.
    + intros [H|(p & q & -> & H)].
      * by exists [], (c :: s).
      * exists (c :: p), q. split; [done|]. by apply deriv_Lang.
    + intros (p & q & E & H). destruct p as [|a p]; [by left|].
      simpl in E. inversion E; subst. right. exists p, q.
      split; [done|]. by apply deriv_Lang.
Qed.

Lemma Lang_class p w : Lang (Class p) w -> exists c, w = [c] /\ p c = true.
Proof. intros H. inversion H; subst. eauto. Qed.

Lemma Lang_star_class p w :
  Lang (Star (Class p)) w -> Forall (fun c => p c = true) w.
Proof.
  intros H. remember (Star (Class p)) as r eqn:Hr.
  induction H; try discriminate.
  - constructor.
  - inversion Hr; subst. apply Lang_class in H as (c & -> & Hc).
    constructor; auto.
Qed.

Lemma Lang_plus_class p w :
  Lang (Plus (Class p)) w ->
  exists c w', w = c :: w' /\ Forall (fun c => p c = true) (c :: w').
Proof.
  intros H. inversion H; subst.
  match goal with H1 : Lang (Class p) _ |- _ =>
    apply Lang_class in H1 as (c & -> & Hc) end.
  exists c, w2. split; [done|]. constructor; [done|by apply Lang_star_class].
Qed.

Lemma star_class_Lang p w :
  Forall (fun c => p c = true) w -> Lang (Star (Class p)) w.
Proof.
  induction 1 as [|c w Hc _ IH]; [constructor|].
  change (c :: w) with ([c] ++ w). constructor; [by constructor|done].
Qed.

Lemma plus_class_Lang p c w :
  Forall (fun c => p c = true) (c :: w) -> Lang (Plus (Class p)) (c :: w).
Proof.
  intros H. inversion H; subst. change (c :: w) with ([c] ++ w).
  constructor; [by constructor|by apply star_class_Lang].
Qed.

(** ** Stripping *)

Lemma lstrip_head s c t : lstrip s = c :: t -> is_space c = false.
Proof.
  induction s as [|a s IH]; simpl; [discriminate|].
  destruct (is_space a) eqn:Ha; [done|]. intros E. by inversion E; subst.
Qed.

Lemma rstrip_head c s :
  is_space c = false -> exists t, rstrip (c :: s) = c :: t.
Proof. intros Hc. simpl. rewrite Hc. destruct (rstrip s); eauto. Qed.

Lemma strip_head text c t : strip text = c :: t -> is_space c = false.
Proof.
  unfold strip. destruct (lstrip text) as [|a s] eqn:El; [discriminate|].
  pose proof (lstrip_head _ _ _ El) as Ha.
  destruct (rstrip_head a s Ha) as [t' Et]. rewrite Et.
  intros E. by inversion E; subst.
Qed.

Lemma lstrip_decompose s :
  exists pre, s = pre ++ lstrip s /\ Forall (fun c => is_space c = true) pre.
Proof.
  induction s as [|c s (pre & E & Hpre)]; simpl.
  - by exists [].
  - destruct (is_space c) eqn:Hc.
    + exists (c :: pre). split; [by rewrite E at 1|by constructor].
    + by exists [].
Qed.

Lemma rstrip_decompose s :
  exists post, s = rstrip s ++ post /\ Forall (fun c => is_space c = true) post.
Proof.
  induction s as [|c s (post & E & Hpost)]; simpl.
  - by exists [].
  - destruct (rstrip s) as [|a t] eqn:Er.
    + simpl in E. subst s. destruct (is_space c) eqn:Hc.
      * exists (c :: post). split; [done|by constructor].
      * by exists post.
    + exists post. split; [|done]. by rewrite E at 1.
Qed.

Lemma rstrip_last s c : last (rstrip s) = Some c -> is_space c = false.
Proof.
  induction s as [|a s IH]; simpl; [discriminate|].
  destruct (rstrip s) as [|b t] eqn:Er.
  - destruct (is_space a) eqn:Ha; simpl; [discriminate|]. by intros [= <-].
  - rewrite last_cons. destruct (last (b :: t)) eqn:El; [exact IH|].
    apply last_None in El. discriminate.
Qed.

(** [strip] removes a run of whitespace at each end and leaves a string that
    neither starts nor ends with whitespace. *)
Lemma strip_spec text :
  (exists pre post,
     text = pre ++ strip text ++ post
     /\ Forall (fun c => is_space c = true) pre
     /\ Forall (fun c => is_space c = true) post)
  /\ (forall c t, strip text = c :: t -> is_space c = false)
  /\ (forall c, last (strip text) = Some c -> is_space c = false).
Proof.
  split; [|split; [apply strip_head|apply rstrip_last]].
  destruct (lstrip_decompose text) as (pre & E & Hpre).
  destruct (rstrip_decompose (lstrip text)) as (post & E' & Hpost).
  exists pre, post. unfold strip. by rewrite <- E'.
Qed.

(** ** The list patterns against the markers of the specification *)

Lemma leading_space_skip body s :
  (exists p q, s = p ++ q /\ Lang body p) ->
  re_match (Cat (Star ws) body) s = true.
Proof.
  intros (p & q & -> & H). apply re_match_spec. exists p, q.
  split; [done|]. change p with ([] ++ p). constructor; [constructor|done].
Qed.

Lemma leading_space_none body s :
  (forall c t, s = c :: t -> is_space c = false) ->
  re_match (Cat (Star ws) body) s = true ->
  exists p q, s = p ++ q /\ Lang body p.
Proof.
  intros Hhead (p & q & -> & H)%re_match_spec.
  apply Lang_cat_inv in H as (sp & p' & -> & Hsp & Hbody).
  apply Lang_star_class in Hsp. destruct sp as [|c0 sp].
  - by exists p', q.
  - inversion Hsp; subst. rewrite (Hhead c0 ((sp ++ p') ++ q)) in *; done.
Qed.

Lemma marker_matches s :
  list_marker s ->
  existsb (fun pattern => re_match pattern s) list_patterns = true.
Proof.
  intros H. apply existsb_exists.
  destruct H as [c w rest Hc Hw|d ds p w rest Hds Hp Hw
                |c p w rest Hc Hp Hw|c w rest Hc Hw].
  - eexists. split; [left; reflexivity|]. apply leading_space_skip.
    exists [c; w], rest. split; [done|].
    apply (Lang_cat_cons _ _ c [] [w]); [by constructor|].
    apply plus_class_Lang. by repeat constructor.
  - eexists. split; [right; left; reflexivity|]. apply leading_space_skip.
    exists ((d :: ds) ++ [p; w]), rest. split; [by rewrite <- app_assoc|].
    constructor; [by apply plus_class_Lang|].
    apply (Lang_cat_cons _ _ p [] [w]); [by constructor|].
    apply plus_class_Lang. by repeat constructor.
  - eexists. split; [right; right; left; reflexivity|].
    apply leading_space_skip.
    exists [c; p; w], rest. split; [done|].
    apply (Lang_cat_cons _ _ c [] [p; w]); [by constructor|].
    apply (Lang_cat_cons _ _ p [] [w]); [by constructor|].
    apply plus_class_Lang. by repeat constructor.
  - eexists. split; [right; right; right; left; reflexivity|].
    apply leading_space_skip.
    exists [c; w], rest. split; [done|].
    apply (Lang_cat_cons _ _ c [] [w]); [by constructor|].
    apply plus_class_Lang. by repeat constructor.
Qed.

Lemma matches_marker s :
  (forall c t, s = c :: t -> is_space c = false) ->
  existsb (fun pattern => re_match pattern s) list_patterns = true ->
  list_marker s.
Proof.
  intros Hhead (r & Hin & Hm)%existsb_exists.
  unfold list_patterns in Hin. simpl in Hin.
  destruct Hin as [<-|[<-|[<-|[<-|[]]]]];
    apply leading_space_none in Hm as (p & q & -> & H); try done.
  - apply Lang_cat_inv in H as (a & b & -> & (c & -> & Hc)%Lang_class & Hb).
    apply Lang_plus_class in Hb as (w & b' & -> & Hw). inversion Hw; subst.
    simpl. by apply marker_bullet.
  - apply Lang_cat_inv in H as (a & b & -> & Ha & Hb).
    apply Lang_plus_class in Ha as (d & ds & -> & Hds).
    apply Lang_cat_inv in Hb as (e & f & -> & (c & -> & Hc)%Lang_class & Hf).
    apply Lang_plus_class in Hf as (w & f' & -> & Hw). inversion Hw; subst.
    rewrite <- !app_assoc. simpl. rewrite app_comm_cons.
    by apply marker_number.
  - apply Lang_cat_inv in H as (a & b & -> & (c & -> & Hc)%Lang_class & Hb).
    apply Lang_cat_inv in Hb as (e & f & -> & (d & -> & Hd)%Lang_class & Hf).
    apply Lang_plus_class in Hf as (w & f' & -> & Hw). inversion Hw; subst.
    simpl. by apply marker_letter.
  - apply Lang_cat_inv in H as (a & b & -> & (c & -> & Hc)%Lang_class & Hb).
    apply Lang_plus_class in Hb as (w & b' & -> & Hw). inversion Hw; subst.
    simpl. by apply marker_dash.
Qed.

(** On a stripped text the four patterns accept exactly the strings that
    start with a list marker. *)
Lemma list_patterns_spec text :
  existsb (fun pattern => re_match pattern (strip text)) list_patterns = true
  <-> list_marker (strip text).
Proof.
  split; [|apply marker_matches].
  apply matches_marker. intros c t. apply strip_head.
Qed.

(** ** The classifier *)

Lemma classify_items_unfold text font_info z v :
  font_info !! "flags" = Some (PyInt z) ->
  font_info !! "size" = Some v ->
  classify_items text font_info =
  let word_count := len (split (strip text)) in
  let is_bold := negb (Z.land z 16 =? 0) in
  if existsb (fun pattern => re_match pattern (strip text)) list_patterns
  then Ok LIST_ITEM
  else
    ge16 ← py_ge v 16;
    if ge16 && is_bold then Ok TITLE
    else
      ge14 ← py_ge v 14;
      if ge14 && (is_bold || (word_count <=? 10)) then Ok SUBTITLE
      else
        ge10 ← py_ge v 10;
        if ge10 && (word_count <=? 20) then Ok SECTION
        else Ok PARAGRAPH.
Proof.
  intros Hf Hs. unfold classify_items, getitem. rewrite Hf, Hs. reflexivity.
Qed.

(** C1. A text whose stripped form starts with a recognised list marker is
    classified [list_item] under every well-formed font information, whatever
    its size and bold flag. *)
Theorem classify_items_list_item text font_info :
  list_marker (strip text) ->
  well_formed font_info ->
  classify_items text font_info = Ok LIST_ITEM.
Proof.
  intros Hm [[z Hz] (v & Hv & _)].
  rewrite (classify_items_unfold _ _ _ _ Hz Hv). cbv zeta.
  apply list_patterns_spec in Hm. by rewrite Hm.
Qed.

Lemma classify_items_list_item_witness :
  classify_items (py "1) introduction")
    {[ "name" := PyStr (py "Helvetica"); "size" := PyFloat (FFinite 24);
       "flags" := PyInt 16 ]} = Ok LIST_ITEM.
Proof.
  apply classify_items_list_item.
  - apply (marker_number 49%N [] 41%N 32%N (py "introduction"));
      [by repeat constructor|reflexivity|reflexivity].
  - split; [by exists 16|exists (PyFloat (FFinite 24)); by split].
Defined.

(** C2. For a text that starts with no list marker and well-formed font
    information with the bold bit set: a size of at least 16 gives [title], so
    a size of exactly 16 does; a size of 15.99 with five words is below the
    title threshold and gives [subtitle]. *)
Theorem classify_items_title_boundary text font_info size flags :
  font_info !! "size" = Some size ->
  numeric size ->
  font_info !! "flags" = Some (PyInt flags) ->
  ~ list_marker (strip text) ->
  Z.land flags 16 <> 0 ->
  (py_ge size 16 = Ok true -> classify_items text font_info = Ok TITLE)
  /\ (size = PyFloat (FFinite 16) -> classify_items text font_info = Ok TITLE)
  /\ (size = PyFloat (binary64 (1599 # 100)) ->
      len (split (strip text)) = 5 ->
      classify_items text font_info = Ok SUBTITLE).
Proof.
  intros Hsize _ Hflags Hno Hbold.
  rewrite (classify_items_unfold _ _ _ _ Hflags Hsize). cbv zeta.
  destruct (existsb _ list_patterns) eqn:Hm.
  { apply list_patterns_spec in Hm. contradiction. }
  apply Z.eqb_neq in Hbold. rewrite Hbold. simpl negb.
  split; [|split].
  - intros ->. reflexivity.
  - intros ->. reflexivity.
  - intros -> ->. reflexivity.
Qed.

Lemma classify_items_title_boundary_witness :
  classify_items (py "Annual report")
    {[ "size" := PyFloat (FFinite 16); "flags" := PyInt 20 ]} = Ok TITLE
  /\ classify_items (py "Results of the third quarter")
       {[ "size" := PyFloat (binary64 (1599 # 100)); "flags" := PyInt 16 ]}
     = Ok SUBTITLE.
Proof.
  split.
  - refine (proj1 (proj2 (classify_items_title_boundary (py "Annual report")
      {[ "size" := PyFloat (FFinite 16); "flags" := PyInt 20 ]}
      (PyFloat (FFinite 16)) 20 _ _ _ _ _)) _).
    + reflexivity.
    + exact I.
    + reflexivity.
    + intros H. apply list_patterns_spec in H. vm_compute in H. discriminate.
    + vm_compute. discriminate.
    + reflexivity.
  - refine (proj2 (proj2 (classify_items_title_boundary
      (py "Results of the third quarter")
      {[ "size" := PyFloat (binary64 (1599 # 100)); "flags" := PyInt 16 ]}
      (PyFloat (binary64 (1599 # 100))) 16 _ _ _ _ _)) _ _).
    + reflexivity.
    + exact I.
    + reflexivity.
    + intros H. apply list_patterns_spec in H. vm_compute in H. discriminate.
    + vm_compute. discriminate.
    + reflexivity.
    + vm_compute. reflexivity.
Defined.

(** ** Sums and tallies *)

Lemma fold_add l : forall a, fold_left Z.add l a = a + sum l.
Proof.
  unfold sum. induction l as [|x l IH]; intros a; cbn [fold_left]; [lia|].
  rewrite (IH (a + x)), (IH (0 + x)). lia.
Qed.

Lemma sum_cons x l : sum (x :: l) = x + sum l.
Proof. unfold sum at 1. simpl. apply fold_add. Qed.

Lemma sum_nil : sum [] = 0.
Proof. reflexivity. Qed.

Lemma sum_nonneg l : Forall (fun x => 0 <= x) l -> 0 <= sum l.
Proof.
  induction 1 as [|x l Hx _ IH]; [by rewrite sum_nil|rewrite sum_cons; lia].
Qed.

Lemma sum_map_add {A} (f g : A -> Z) l :
  sum (map (fun x => f x + g x) l) = sum (map f l) + sum (map g l).
Proof.
  induction l as [|x l IH]; simpl; [reflexivity|]. rewrite !sum_cons. lia.
Qed.

Lemma len_nonneg {A} (l : list A) : 0 <= len l.
Proof. unfold len. lia. Qed.

Lemma len_cons {A} (x : A) l : len (x :: l) = 1 + len l.
Proof. unfold len. simpl length. lia. Qed.

(** Summing an indicator of [k] over a duplicate-free list. *)
Lemma sum_indicator (k x : Z) (l : list Z) :
  NoDup l ->
  sum (map (fun p => if decide (k = p) then x else 0) l)
  = if decide (k ∈ l) then x else 0.
Proof.
  induction 1 as [|p l Hp Hl IH]; simpl.
  - by rewrite sum_nil.
  - rewrite sum_cons, IH.
    repeat case_decide; subst; try lia; exfalso; set_solver.
Qed.


Section counting.
Context `{EqDecision K}.
Implicit Types (j k : K) (keys : list K).

Lemma occurrences_nil j : occurrences j [] = 0.
Proof. reflexivity. Qed.

Lemma occurrences_cons j k keys :
  occurrences j (k :: keys)
  = (if decide (k = j) then 1 else 0) + occurrences j keys.
Proof.
  unfold occurrences. rewrite filter_cons.
  destruct (decide (k = j)); rewrite ?len_cons; lia.
Qed.

Lemma occurrences_nonneg j keys : 0 <= occurrences j keys.
Proof. apply len_nonneg. Qed.

Lemma occurrences_map {A} (f : A -> K) j (l : list A) :
  occurrences j (map f l) = len (filter (fun x => f x = j) l).
Proof.
  induction l as [|x l IH]; [reflexivity|]. cbn [map].
  rewrite occurrences_cons, filter_cons, IH.
  destruct (decide (f x = j)); rewrite ?len_cons; lia.
Qed.
End counting.

Lemma increment_lookup d k j :
  default 0 (increment d k !! j)
  = default 0 (d !! j) + (if decide (k = j) then 1 else 0).
Proof.
  unfold increment. destruct (decide (k = j)) as [->|Hne].
  - rewrite lookup_insert_eq. simpl. lia.
  - rewrite lookup_insert_ne by done. lia.
Qed.

Lemma tally_cons k keys d : tally (k :: keys) d = tally keys (increment d k).
Proof. reflexivity. Qed.

Lemma tally_lookup keys : forall d j,
  default 0 (tally keys d !! j) = default 0 (d !! j) + occurrences j keys.
Proof.
  induction keys as [|k keys IH]; intros d j.
  - rewrite occurrences_nil. simpl. lia.
  - rewrite tally_cons, IH, increment_lookup, occurrences_cons. lia.
Qed.

Lemma sum_values_insert (d : gmap Z Z) k v :
  sum_values (<[k := v]> d) = sum_values d - default 0 (d !! k) + v.
Proof.
  unfold sum_values. rewrite <- insert_delete_eq.
  rewrite map_fold_insert_L; [|intros; lia|apply lookup_delete_eq].
  destruct (d !! k) as [z|] eqn:E; simpl.
  - rewrite (map_fold_delete_L _ _ k z d); [lia|intros; lia|done].
  - rewrite delete_id by done. lia.
Qed.

Lemma sum_values_increment d k : sum_values (increment d k) = sum_values d + 1.
Proof. unfold increment. rewrite sum_values_insert. lia. Qed.

Lemma tally_sum keys : forall d,
  sum_values (tally keys d) = sum_values d + len keys.
Proof.
  induction keys as [|k keys IH]; intros d.
  - unfold len. simpl. lia.
  - rewrite tally_cons, IH, sum_values_increment, len_cons. lia.
Qed.

Lemma tally_dom keys : forall d,
  dom (tally keys d) = dom d ∪ list_to_set keys.
Proof.
  induction keys as [|k keys IH]; intros d.
  - simpl. set_solver.
  - rewrite tally_cons, IH. unfold increment. rewrite dom_insert_L.
    simpl. set_solver.
Qed.

Lemma tally_positive keys : forall d,
  map_Forall (fun _ v => 1 <= v) d ->
  map_Forall (fun _ v => 1 <= v) (tally keys d).
Proof.
  induction keys as [|k keys IH]; intros d Hd; [done|].
  rewrite tally_cons. apply IH. unfold increment.
  apply map_Forall_insert_2; [|done].
  destruct (d !! k) as [v|] eqn:E; simpl; [|lia].
  specialize (Hd k v E). simpl in Hd. lia.
Qed.

Lemma fold_left_tally {A} (f : A -> Z) (l : list A) : forall d,
  fold_left (fun d e => increment d (f e)) l d = tally (map f l) d.
Proof. induction l as [|x l IH]; intros d; [reflexivity|apply IH]. Qed.

Lemma hierarchical_counts_tally es :
  hierarchical_counts_per_page es
  = tally (map page_number (hierarchical_elements es)) ∅.
Proof. apply fold_left_tally. Qed.

Lemma section_distribution_tally es :
  section_distribution_of es
  = tally (map page_number
             (filter (fun e => element_type e = SECTION) es)) ∅.
Proof.
  unfold section_distribution_of. generalize (∅ : gmap Z Z).
  induction es as [|e es IH]; intros d; [reflexivity|].
  cbn [fold_left]. rewrite filter_cons.
  destruct (decide (element_type e = SECTION)); apply IH.
Qed.

Lemma Counter_lookup keys (k : string) :
  default 0 (Counter keys !! k) = occurrences k keys.
Proof.
  unfold Counter.
  enough (forall c : gmap string Z,
    default 0 (fold_left
      (fun counts k => <[k := default 0 (counts !! k) + 1]> counts) keys c
      !! k) = default 0 (c !! k) + occurrences k keys) as H.
  { rewrite H, lookup_empty. simpl. lia. }
  induction keys as [|k' keys IH]; intros c.
  - rewrite occurrences_nil. simpl. lia.
  - cbn [fold_left]. rewrite IH, occurrences_cons.
    destruct (decide (k' = k)) as [->|Hne].
    + rewrite lookup_insert_eq. simpl. lia.
    + rewrite lookup_insert_ne by done. lia.
Qed.

Lemma value_inj t1 t2 : value t1 = value t2 -> t1 = t2.
Proof. destruct t1, t2; simpl; intros H; try reflexivity; discriminate. Qed.

(** The count a [Counter] over the type tags holds for a type. *)
Lemma Counter_count es t :
  default 0 (Counter (map (fun elem => value (element_type elem)) es)
             !! value t)
  = len (filter (fun e => element_type e = t) es).
Proof.
  rewrite Counter_lookup, occurrences_map. f_equal.
  apply list_filter_iff. intros e. split; [apply value_inj|congruence].
Qed.

(** ** Text density *)

(** The content length of the elements of page [p]. *)
Lemma page_density_cons e es p :
  sum (map (fun e => len (content e))
         (filter (fun e => page_number e = p) (e :: es)))
  = (if decide (page_number e = p) then len (content e) else 0)
    + sum (map (fun e => len (content e))
             (filter (fun e => page_number e = p) es)).
Proof.
  rewrite filter_cons. destruct (decide (page_number e = p)); [|lia].
  cbn [map]. by rewrite sum_cons.
Qed.

Lemma sum_zeros {A} (l : list A) : sum (map (fun _ => 0) l) = 0.
Proof. induction l; simpl; [reflexivity|rewrite sum_cons; lia]. Qed.

(** The per-page sums add up to the content length of the elements whose
    page lies in [1..total_pages]. *)
Lemma text_density_sum total_pages es :
  sum (text_density_per_page total_pages es)
  = sum (map (fun e => len (content e))
           (filter (fun e => 1 <= page_number e <= total_pages) es)).
Proof.
  unfold text_density_per_page. induction es as [|e es IH].
  - apply sum_zeros.
  - rewrite (map_ext _ _ (page_density_cons e es)).
    rewrite (sum_map_add
      (fun p => if decide (page_number e = p) then len (content e) else 0)).
    rewrite IH, sum_indicator by apply NoDup_seqZ.
    rewrite filter_cons.
    destruct (decide (page_number e ∈ seqZ 1 total_pages)) as [Hin|Hnin];
      rewrite elem_of_seqZ in *.
    + rewrite decide_True by lia. cbn [map]. by rewrite sum_cons.
    + rewrite decide_False by lia. lia.
Qed.

Lemma text_density_len total_pages es :
  0 <= total_pages -> len (text_density_per_page total_pages es) = total_pages.
Proof.
  intros H. unfold len, text_density_per_page.
  rewrite length_map, length_seqZ. lia.
Qed.

Lemma page_lengths_lookup es p :
  default 0 (page_lengths es !! p)
  = sum (map (fun e => len (content e))
           (filter (fun e => page_number e = p) es)).
Proof.
  unfold page_lengths.
  enough (forall m : gmap Z Z,
    default 0 (fold_left
      (fun m e =>
         <[page_number e := default 0 (m !! page_number e) + len (content e)]> m)
      es m !! p)
    = default 0 (m !! p)
      + sum (map (fun e => len (content e))
               (filter (fun e => page_number e = p) es))) as H.
  { rewrite H, lookup_empty. simpl. lia. }
  induction es as [|e es IH]; intros m.
  - simpl. rewrite sum_nil. lia.
  - cbn [fold_left]. rewrite IH, page_density_cons.
    destruct (decide (page_number e = p)) as [->|Hne].
    + rewrite lookup_insert_eq. simpl. lia.
    + rewrite lookup_insert_ne by done. lia.
Qed.

(** The list the code builds page by page sums to what the page map holds for
    the pages [1..total_pages]. *)
Lemma text_density_total total_pages es :
  sum (text_density_per_page total_pages es) = density_total total_pages es.
Proof.
  unfold text_density_per_page, density_total. f_equal.
  apply map_ext. intros p. symmetry. apply page_lengths_lookup.
Qed.

(** ** Sizes *)

Lemma document_size_cons e es :
  document_size (e :: es) = 1 + len (content e) + document_size es.
Proof. unfold document_size. cbn [map]. rewrite sum_cons. lia. Qed.

Lemma document_size_nonneg es : 0 <= document_size es.
Proof.
  induction es as [|e es IH]; [by unfold document_size|].
  rewrite document_size_cons. pose proof (len_nonneg (content e)). lia.
Qed.

Lemma split_from_length s : forall cur,
  (length (split_from cur s) <= length s + match cur with [] => 0 | _ => 1 end)%nat.
Proof.
  induction s as [|c s IH]; intros cur; simpl.
  - destruct cur; simpl; lia.
  - destruct (is_space c).
    + destruct cur; simpl; specialize (IH []); simpl in IH; lia.
    + specialize (IH (c :: cur)). simpl in IH. destruct cur; lia.
Qed.

Lemma split_len s : 0 <= len (split s) <= len s.
Proof.
  unfold len, split. pose proof (split_from_length s []). simpl in *. lia.
Qed.

(** The elements a filter keeps weigh no more than the whole list. *)
Section filtered.
Context (P : DocumentElement -> Prop) `{!forall e, Decision (P e)}.
Implicit Types es : list DocumentElement.

Lemma filtered_content_bound es :
  0 <= sum (map (fun e => len (content e)) (filter P es))
    <= document_size es.
Proof.
  induction es as [|e es IH].
  - by unfold document_size.
  - rewrite filter_cons, document_size_cons.
    pose proof (len_nonneg (content e)).
    destruct (decide (P e)); [cbn [map]; rewrite sum_cons|]; lia.
Qed.

Lemma filtered_len_bound es : len (filter P es) <= document_size es.
Proof.
  induction es as [|e es IH].
  - by unfold document_size.
  - rewrite filter_cons, document_size_cons.
    pose proof (len_nonneg (content e)).
    destruct (decide (P e)); rewrite ?len_cons; lia.
Qed.

Lemma filtered_words_bound es :
  0 <= sum (map (fun p => len (split (content p))) (filter P es))
    <= document_size es.
Proof.
  induction es as [|e es IH].
  - by unfold document_size.
  - rewrite filter_cons, document_size_cons.
    pose proof (split_len (content e)).
    destruct (decide (P e)); [cbn [map]; rewrite sum_cons|]; lia.
Qed.
End filtered.

(** ** Division *)

Lemma overflow_threshold_value :
  (overflow_threshold == inject_Z (2 ^ 1024 - 2 ^ 970))%Q.
Proof. vm_compute. reflexivity. Qed.

(** A quotient of a natural number below [2^1023] by a positive number is in
    the range of the doubles. *)
Lemma py_truediv_ok a b :
  0 <= a < 2 ^ 1023 -> 1 <= b ->
  py_truediv a b = Ok (binary64 (inject_Z a / inject_Z b)).
Proof.
  intros Ha Hb. unfold py_truediv.
  destruct (b =? 0) eqn:Eb; [lia|].
  destruct (Qle_bool overflow_threshold _) eqn:E; [|reflexivity].
  exfalso. apply Qle_bool_iff in E. rewrite overflow_threshold_value in E.
  assert (0 < inject_Z b)%Q as Hb' by (unfold Qlt, inject_Z; simpl; lia).
  assert (0 <= inject_Z a / inject_Z b)%Q as Hpos.
  { apply Qle_shift_div_l; [done|].
    rewrite Qmult_0_l. unfold Qle, inject_Z; simpl; lia. }
  rewrite Qabs_pos in E by done.
  assert (inject_Z a / inject_Z b <= inject_Z a)%Q as Hle.
  { apply Qle_shift_div_r; [done|]. unfold Qle, Qmult, inject_Z; simpl; nia. }
  pose proof (Qle_trans _ _ _ E Hle) as Hbig.
  rewrite <- Zle_Qle in Hbig.
  assert (2 ^ 1024 = 2 * 2 ^ 1023) as E1 by (by rewrite <- Z.pow_succ_r).
  assert (2 ^ 970 < 2 ^ 1023) by (apply Z.pow_lt_mono_r; lia).
  lia.
Qed.

(** ** The aggregation, field by field *)

Lemma sum_values_empty : sum_values ∅ = 0.
Proof. reflexivity. Qed.

Lemma hierarchical_counts_sum es :
  sum_values (hierarchical_counts_per_page es) = len (hierarchical_elements es).
Proof.
  rewrite hierarchical_counts_tally, tally_sum, sum_values_empty.
  unfold len. rewrite length_map. lia.
Qed.

Lemma hierarchical_counts_empty es :
  size (hierarchical_counts_per_page es) = 0%nat <-> hierarchical_elements es = [].
Proof.
  rewrite map_size_empty_iff. split.
  - intros H. pose proof (hierarchical_counts_sum es) as Hs.
    rewrite H, sum_values_empty in Hs.
    destruct (hierarchical_elements es); [done|]. rewrite len_cons in Hs.
    pose proof (len_nonneg l). lia.
  - intros H. rewrite hierarchical_counts_tally, H. reflexivity.
Qed.

(** Reads the fields off the record a run returned. *)
Ltac returned_record st es :=
  let H := fresh in
  cbn [mbind result_bind]; intros [= H]; subst st;
  cbn [title_count section_count table_count image_count
       avg_text_density_per_page avg_hierarchical_depth section_distribution];
  pose proof (Counter_count es TITLE) as Ht;
  pose proof (Counter_count es SECTION) as Hs;
  pose proof (Counter_count es TABLE) as Hb;
  pose proof (Counter_count es IMAGE) as Hi;
  cbn [value] in Ht, Hs, Hb, Hi; rewrite Ht, Hs, Hb, Hi;
  repeat split; eauto.

(** What a returned record holds. *)
Lemma generate_statistics_fields total_pages es st :
  _generate_statistics total_pages es = Ok st ->
  title_count st = len (filter (fun e => element_type e = TITLE) es)
  /\ section_count st = len (filter (fun e => element_type e = SECTION) es)
  /\ table_count st = len (filter (fun e => element_type e = TABLE) es)
  /\ image_count st = len (filter (fun e => element_type e = IMAGE) es)
  /\ (exists mean,
        py_truediv (sum (text_density_per_page total_pages es))
                   (len (text_density_per_page total_pages es)) = Ok mean
        /\ avg_text_density_per_page st = PyFloat (py_round mean 2))
  /\ (if decide (size (hierarchical_counts_per_page es) ≠ 0%nat)
      then exists mean,
          py_truediv (sum_values (hierarchical_counts_per_page es))
                     (Z.of_nat (size (hierarchical_counts_per_page es)))
          = Ok mean
          /\ avg_hierarchical_depth st = PyFloat (py_round mean 2)
      else avg_hierarchical_depth st = PyInt 0)
  /\ section_distribution st = section_distribution_of es.
Proof.
  unfold _generate_statistics. cbv zeta.
  destruct (py_truediv (sum _) (len (text_density_per_page _ _)))
    as [dm|] eqn:Ed; [|discriminate].
  cbn [mbind result_bind].
  destruct (decide (size (hierarchical_counts_per_page es) ≠ 0%nat)).
  - destruct (py_truediv (sum_values _) _) as [hm|] eqn:Eh; [|discriminate].
    cbn [mbind result_bind].
    destruct (paragraphs es) as [|p ps].
    + returned_record st es.
    + destruct (py_truediv _ (len (p :: ps))); [|discriminate].
      returned_record st es.
  - cbn [mbind result_bind].
    destruct (paragraphs es) as [|p ps].
    + returned_record st es.
    + destruct (py_truediv _ (len (p :: ps))); [|discriminate].
      returned_record st es.
Qed.

(** The aggregation returns on every document with a page that fits in
    memory. *)
Lemma generate_statistics_returns total_pages es :
  1 <= total_pages -> fits_in_memory es ->
  exists st, _generate_statistics total_pages es = Ok st.
Proof.
  intros Hn Hfit. unfold fits_in_memory in Hfit.
  assert (forall ps, paragraphs es = ps -> ps <> [] ->
    exists mean,
      py_truediv (sum (map (fun p => len (split (content p))) ps)) (len ps)
      = Ok mean) as Hwords.
  { intros ps <- Hne. eexists. apply py_truediv_ok.
    - pose proof (filtered_words_bound
                    (fun e => element_type e = PARAGRAPH) es).
      unfold paragraphs. lia.
    - destruct (paragraphs es); [done|].
      rewrite len_cons. pose proof (len_nonneg l). lia. }
  unfold _generate_statistics. cbv zeta.
  rewrite (py_truediv_ok (sum (text_density_per_page total_pages es))); cycle 1.
  { rewrite text_density_sum.
    pose proof (filtered_content_bound
                  (fun e => 1 <= page_number e <= total_pages) es). lia. }
  { rewrite text_density_len; lia. }
  cbn [mbind result_bind].
  destruct (decide (size (hierarchical_counts_per_page es) ≠ 0%nat)).
  - rewrite (py_truediv_ok (sum_values (hierarchical_counts_per_page es)));
      cycle 1.
    { rewrite hierarchical_counts_sum.
      pose proof (filtered_len_bound
        (fun e => element_type e ∈ [TITLE; SUBTITLE; SECTION]) es).
      pose proof (len_nonneg (hierarchical_elements es)).
      unfold hierarchical_elements in *. lia. }
    { lia. }
    cbn [mbind result_bind].
    destruct (paragraphs es) as [|p ps] eqn:Ep; [by eexists|].
    destruct (Hwords (p :: ps) eq_refl) as [mean ->]; [done|by eexists].
  - cbn [mbind result_bind].
    destruct (paragraphs es) as [|p ps] eqn:Ep; [by eexists|].
    destruct (Hwords (p :: ps) eq_refl) as [mean ->]; [done|by eexists].
Qed.

Lemma generate_statistics_without_pages total_pages es :
  total_pages < 1 ->
  _generate_statistics total_pages es = Raise ZeroDivisionError.
Proof.
  intros H. unfold _generate_statistics, text_density_per_page. cbv zeta.
  rewrite seqZ_nil by lia. reflexivity.
Qed.

(** C3. With a page count of 0 the aggregation divides the summed density by
    the length of an empty list: it raises [ZeroDivisionError], where the
    specification asks for an [InvalidInput] error. *)
Theorem generate_statistics_zero_pages es :
  _generate_statistics 0 es = Raise ZeroDivisionError.
Proof. apply generate_statistics_without_pages. lia. Qed.

(** ** Claims about the aggregation *)

Example generate_statistics_one_section :
  _generate_statistics 5 one_section = Ok one_section_statistics.
Proof. vm_compute. reflexivity. Qed.

(** C5. For a page count of at least 1, [avg_text_density_per_page] is the
    summed content length of the pages 1 to the page count, a page without
    elements counting 0, divided by the page count and rounded to two
    places; the aggregation returns on every list that fits in memory. *)
Theorem avg_text_density_per_page_spec total_pages es :
  1 <= total_pages ->
  (forall st, _generate_statistics total_pages es = Ok st ->
     exists mean,
       py_truediv (density_total total_pages es) total_pages = Ok mean
       /\ avg_text_density_per_page st = PyFloat (py_round mean 2))
  /\ (fits_in_memory es ->
      exists st, _generate_statistics total_pages es = Ok st).
Proof.
  intros Hn. split; [|by apply generate_statistics_returns].
  intros st (_ & _ & _ & _ & (mean & Hm & Hd) & _)%generate_statistics_fields.
  rewrite text_density_total, text_density_len in Hm by lia. eauto.
Qed.

Lemma avg_text_density_per_page_spec_witness :
  (exists mean,
     py_truediv (density_total 5 one_section) 5 = Ok mean
     /\ avg_text_density_per_page one_section_statistics
        = PyFloat (py_round mean 2))
  /\ exists st, _generate_statistics 5 one_section = Ok st.
Proof.
  assert (1 <= 5) as H by lia.
  split.
  - apply (proj1 (avg_text_density_per_page_spec 5 one_section H)).
    vm_compute. reflexivity.
  - apply (proj2 (avg_text_density_per_page_spec 5 one_section H)).
    vm_compute. reflexivity.
Defined.

(** The counts of a tally, summed over a duplicate-free list that holds every
    key, give the number of keys. *)
Lemma occurrences_sum (keys l : list Z) :
  NoDup l -> (forall k, k ∈ keys -> k ∈ l) ->
  sum (map (fun p => occurrences p keys) l) = len keys.
Proof.
  intros Hl. induction keys as [|k keys IH]; intros Hin.
  - rewrite (map_ext _ (fun _ => 0)) by (intros; apply occurrences_nil).
    apply sum_zeros.
  - rewrite (map_ext _ _ (fun p => occurrences_cons p k keys)).
    rewrite (sum_map_add (fun p => if decide (k = p) then 1 else 0)).
    rewrite sum_indicator by done.
    rewrite decide_True by (apply Hin; left).
    rewrite IH, len_cons; [lia|]. intros j Hj. apply Hin. by right.
Qed.

Lemma occurrences_positive (k : Z) keys : 1 <= occurrences k keys <-> k ∈ keys.
Proof.
  induction keys as [|k' keys IH].
  - rewrite occurrences_nil. split; [lia|]. by intros ?%not_elem_of_nil.
  - rewrite occurrences_cons, elem_of_cons.
    pose proof (occurrences_nonneg k keys).
    destruct (decide (k' = k)) as [->|Hne].
    + split; [by left|lia].
    + rewrite <- IH. split; [intros; right; lia|].
      intros [?|?]; [congruence|lia].
Qed.

Lemma filter_nil_Forall {A} (P : A -> Prop) `{!forall x, Decision (P x)} l :
  filter P l = [] <-> Forall (fun x => ~ P x) l.
Proof.
  induction l as [|x l IH]; [by split|].
  rewrite filter_cons, Forall_cons. destruct (decide (P x)).
  - split; [discriminate|tauto].
  - rewrite IH. tauto.
Qed.

(** The membership test of the code picks the elements of a hierarchical
    type. *)
Lemma hierarchical_elements_spec es :
  hierarchical_elements es
  = filter (fun e => hierarchical (element_type e)) es.
Proof.
  unfold hierarchical_elements, hierarchical. apply list_filter_iff.
  intros e. rewrite !elem_of_cons, elem_of_nil. tauto.
Qed.

Lemma hierarchical_elements_none es :
  hierarchical_elements es = []
  <-> Forall (fun e => ~ hierarchical (element_type e)) es.
Proof. rewrite hierarchical_elements_spec. apply filter_nil_Forall. Qed.

Lemma hierarchical_on_page_tally es p :
  hierarchical_on_page es p
  = occurrences p (map page_number (hierarchical_elements es)).
Proof.
  rewrite occurrences_map, hierarchical_elements_spec.
  unfold hierarchical_on_page. f_equal. symmetry. apply list_filter_filter.
Qed.

(** The pages of the mean are those with at least one hierarchical element. *)
Lemma hierarchical_pages_spec es p :
  p ∈ hierarchical_pages es <-> 1 <= hierarchical_on_page es p.
Proof.
  unfold hierarchical_pages.
  rewrite elem_of_list_to_set, list_elem_of_filter. split; [tauto|].
  intros H. split; [done|].
  rewrite hierarchical_on_page_tally, occurrences_positive in H.
  rewrite list_elem_of_In, in_map_iff in H.
  destruct H as (e & <- & He%list_elem_of_In).
  rewrite hierarchical_elements_spec, list_elem_of_filter in He.
  rewrite list_elem_of_In. apply in_map. apply list_elem_of_In. tauto.
Qed.

Lemma hierarchical_counts_dom es :
  dom (hierarchical_counts_per_page es) = hierarchical_pages es.
Proof.
  apply set_eq. intros p.
  rewrite hierarchical_pages_spec, hierarchical_on_page_tally,
          occurrences_positive.
  rewrite hierarchical_counts_tally, tally_dom, dom_empty_L. set_solver.
Qed.

Lemma hierarchical_counts_size es :
  size (hierarchical_counts_per_page es) = size (hierarchical_pages es).
Proof. by rewrite <- hierarchical_counts_dom, size_dom. Qed.

Lemma depth_total_counts es :
  depth_total es = sum_values (hierarchical_counts_per_page es).
Proof.
  rewrite hierarchical_counts_sum. unfold depth_total.
  rewrite (map_ext _ _ (hierarchical_on_page_tally es)).
  rewrite occurrences_sum.
  - unfold len. by rewrite length_map.
  - apply NoDup_elements.
  - intros k Hk. apply elem_of_elements.
    by rewrite hierarchical_pages_spec, hierarchical_on_page_tally,
               occurrences_positive.
Qed.

Example mixed_depth :
  depth_total mixed_elements = 3
  /\ size (hierarchical_pages mixed_elements) = 2%nat
  /\ avg_hierarchical_depth mixed_statistics = PyFloat (binary64 (15 # 10)).
Proof. vm_compute. repeat split. Qed.

(** C6. [avg_hierarchical_depth] is the mean, over exactly the pages that
    hold a title, subtitle or section, of the number of such elements on the
    page, rounded to two places; pages without one enter neither the sum nor
    the divisor, and without any such element the value is the integer 0,
    with no division. *)
Theorem avg_hierarchical_depth_spec total_pages es :
  (forall st, _generate_statistics total_pages es = Ok st ->
     (Forall (fun e => ~ hierarchical (element_type e)) es ->
      avg_hierarchical_depth st = PyInt 0)
     /\ (Exists (fun e => hierarchical (element_type e)) es ->
         exists mean,
           py_truediv (depth_total es)
                      (Z.of_nat (size (hierarchical_pages es))) = Ok mean
           /\ avg_hierarchical_depth st = PyFloat (py_round mean 2)))
  /\ (forall p, p ∈ hierarchical_pages es <-> 1 <= hierarchical_on_page es p)
  /\ (1 <= total_pages -> fits_in_memory es ->
      exists st, _generate_statistics total_pages es = Ok st).
Proof.
  split; [|split; [apply hierarchical_pages_spec
                  |by apply generate_statistics_returns]].
  intros st (_ & _ & _ & _ & _ & Hdepth & _)%generate_statistics_fields.
  destruct (decide (size (hierarchical_counts_per_page es) ≠ 0%nat))
    as [Hsome|Hnone].
  - rewrite hierarchical_counts_empty, hierarchical_elements_none in Hsome.
    split; [done|].
    intros _. destruct Hdepth as (mean & Hm & Hd).
    rewrite <- depth_total_counts, hierarchical_counts_size in Hm. eauto.
  - apply dec_stable in Hnone.
    rewrite hierarchical_counts_empty, hierarchical_elements_none in Hnone.
    split; [done|].
    intros (e & He & Hh)%Exists_exists. rewrite Forall_forall in Hnone.
    by destruct (Hnone e He).
Qed.

Lemma avg_hierarchical_depth_spec_witness :
  (exists mean,
     py_truediv (depth_total mixed_elements)
                (Z.of_nat (size (hierarchical_pages mixed_elements)))
     = Ok mean
     /\ avg_hierarchical_depth mixed_statistics = PyFloat (py_round mean 2))
  /\ exists st, _generate_statistics 3 mixed_elements = Ok st.
Proof.
  split.
  - apply (proj1 (avg_hierarchical_depth_spec 3 mixed_elements)
             mixed_statistics).
    + vm_compute. reflexivity.
    + apply Exists_cons_tl, Exists_cons_tl, Exists_cons_hd. by left.
  - apply (proj2 (proj2 (avg_hierarchical_depth_spec 3 mixed_elements))).
    + lia.
    + vm_compute. reflexivity.
Defined.

(** C7. Aggregating no elements over three pages returns the four counts 0,
    a density of 0.0, a depth and a paragraph length of 0, and an empty
    section distribution. *)
Theorem generate_statistics_empty :
  _generate_statistics 3 [] =
  Ok {| title_count := 0;
        section_count := 0;
        table_count := 0;
        image_count := 0;
        avg_text_density_per_page := PyFloat (FFinite 0);
        avg_hierarchical_depth := PyInt 0;
        avg_paragraph_length := PyInt 0;
        section_distribution := ∅ |}.
Proof. vm_compute. reflexivity. Qed.

(** C10. In a returned record every value of [section_distribution] is at
    least 1, and [section_count] is the sum of its values. *)
Theorem section_distribution_invariant total_pages es :
  (forall st, _generate_statistics total_pages es = Ok st ->
     map_Forall (fun _ v => 1 <= v) (section_distribution st)
     /\ section_count st = sum_values (section_distribution st))
  /\ (1 <= total_pages -> fits_in_memory es ->
      exists st, _generate_statistics total_pages es = Ok st).
Proof.
  split; [|by apply generate_statistics_returns].
  intros st (_ & Hcount & _ & _ & _ & _ & Hdist)%generate_statistics_fields.
  rewrite Hdist, Hcount, section_distribution_tally. split.
  - apply tally_positive, map_Forall_empty.
  - rewrite tally_sum, sum_values_empty. unfold len.
    rewrite length_map. lia.
Qed.

Lemma section_distribution_invariant_witness :
  (map_Forall (fun _ v => 1 <= v) (section_distribution one_section_statistics)
   /\ section_count one_section_statistics
      = sum_values (section_distribution one_section_statistics))
  /\ exists st, _generate_statistics 5 one_section = Ok st.
Proof.
  split.
  - apply (proj1 (section_distribution_invariant 5 one_section)).
    vm_compute. reflexivity.
  - apply (proj2 (section_distribution_invariant 5 one_section)).
    + lia.
    + vm_compute. reflexivity.
Defined.

(** ** The page walk *)

Lemma collect_spans_text spans : forall acc,
  (fold_left collect_span spans acc).1
  = acc.1 ++ concat (map span_text spans).
Proof.
  induction spans as [|sp spans IH]; intros acc; simpl.
  - by rewrite app_nil_r.
  - rewrite IH. simpl. by rewrite <- app_assoc.
Qed.

Lemma span_font_info_nonempty sp : span_font_info sp <> ∅.
Proof.
  unfold span_font_info. intros H.
  apply (f_equal (fun m => m !! "name")) in H.
  rewrite lookup_insert_eq, lookup_empty in H. discriminate.
Qed.

Lemma collect_spans_font spans : forall acc,
  (fold_left collect_span spans acc).2
  = if decide (acc.2 = ∅)
    then match spans with [] => ∅ | sp :: _ => span_font_info sp end
    else acc.2.
Proof.
  induction spans as [|sp spans IH]; intros acc; simpl.
  - by destruct (decide (acc.2 = ∅)).
  - rewrite IH. simpl. destruct (decide (acc.2 = ∅)) as [He|Hne].
    + by rewrite decide_False by apply span_font_info_nonempty.
    + by rewrite decide_False by done.
Qed.

Lemma collect_lines ls : forall acc,
  fold_left (fun acc line => fold_left collect_span line acc) ls acc
  = fold_left collect_span (concat ls) acc.
Proof.
  induction ls as [|line ls IH]; intros acc; simpl; [done|].
  by rewrite IH, fold_left_app.
Qed.

(** The loops over lines and spans gather the concatenated run text. *)
Lemma collect_block_text ls : (collect_block ls).1 = run_text ls.
Proof. unfold collect_block. by rewrite collect_lines, collect_spans_text. Qed.

(** They keep the font information of the first span. *)
Lemma collect_block_font ls :
  (collect_block ls).2
  = match concat ls with [] => ∅ | sp :: _ => span_font_info sp end.
Proof.
  unfold collect_block. rewrite collect_lines, collect_spans_font. simpl.
  by rewrite decide_True.
Qed.

Lemma span_font_info_well_formed sp : well_formed (span_font_info sp).
Proof.
  unfold span_font_info. split.
  - exists (span_flags sp). by simplify_map_eq.
  - exists (PyFloat (span_size sp)). by simplify_map_eq.
Qed.

Lemma classify_items_returns text font_info :
  well_formed font_info -> exists t, classify_items text font_info = Ok t.
Proof.
  intros [[z Hz] (v & Hv & Hnum)].
  rewrite (classify_items_unfold _ _ _ _ Hz Hv). cbv zeta.
  destruct (existsb _ _); [eauto|].
  destruct v as [n|f|?]; [| |done]; simpl;
    repeat match goal with
           | |- context [if ?b then _ else _] => destruct b
           end; eauto.
Qed.

Lemma strip_nil : strip [] = [].
Proof. reflexivity. Qed.

Lemma text_block_font ls :
  strip (run_text ls) <> [] -> well_formed (collect_block ls).2.
Proof.
  intros Hne. rewrite collect_block_font.
  destruct (concat ls) as [|sp spans] eqn:E.
  - exfalso. apply Hne. unfold run_text. by rewrite E.
  - apply span_font_info_well_formed.
Qed.

(** The loop body never raises. *)
Lemma text_element_returns block ls page_number :
  exists made, text_element block ls page_number = Ok made.
Proof.
  unfold text_element. cbv zeta.
  destruct (strip (collect_block ls).1) as [|c t] eqn:E; [eauto|].
  rewrite collect_block_text in E.
  destruct (classify_items_returns (collect_block ls).1 (collect_block ls).2)
    as [ty Hty].
  { apply text_block_font. by rewrite E. }
  rewrite Hty. cbn [mbind result_bind]. eauto.
Qed.

(** C4, as the code has it. A block whose run text is not blank gives an
    element whose content is the concatenated run text, stripped, with every
    newline replaced by one space and every tab removed. *)
Theorem text_element_content block ls page_number :
  strip (run_text ls) <> [] ->
  exists element,
    text_element block ls page_number = Ok (Some element)
    /\ content element
       = replace tab [] (replace newline (py " ") (strip (run_text ls))).
Proof.
  intros Hne. unfold text_element. cbv zeta.
  destruct (classify_items_returns (collect_block ls).1 (collect_block ls).2)
    as [ty Hty]; [by apply text_block_font|].
  rewrite Hty, collect_block_text. cbn [mbind result_bind].
  destruct (strip (run_text ls)) eqn:E; [done|].
  eexists. split; reflexivity.
Qed.

Lemma text_element_content_witness :
  exists element,
    text_element tabbed_block tabbed_lines 1 = Ok (Some element)
    /\ content element = py "ab".
Proof.
  apply (text_element_content tabbed_block tabbed_lines 1).
  vm_compute. discriminate.
Defined.

(** C4, as stated, fails on a block that holds a tab: the code drops the tab,
    the specification turns it into a space. *)
Lemma tab_is_dropped :
  exists element,
    text_element tabbed_block tabbed_lines 1 = Ok (Some element)
    /\ content element = py "ab"
    /\ content_with_spaces tabbed_lines = py "a b"
    /\ content element <> content_with_spaces tabbed_lines.
Proof.
  eexists. split; [vm_compute; reflexivity|].
  split; [reflexivity|]. split; [reflexivity|]. vm_compute. discriminate.
Qed.

Lemma extract_blocks_spec bs page_number : forall acc,
  extract_blocks bs page_number acc
  = Ok (acc ++ omap (block_element page_number) bs).
Proof.
  induction bs as [|block bs IH]; intros acc; simpl.
  - by rewrite app_nil_r.
  - unfold block_element at 1. destruct (lines block) as [ls|]; [|apply IH].
    destruct (text_element_returns block ls page_number) as [made ->].
    cbn [mbind result_bind]. destruct made as [element|]; [|apply IH].
    rewrite IH. by rewrite <- app_assoc.
Qed.

(** ** The order of the query *)

Lemma real_le_total a b : real_le a b = false -> real_le b a = true.
Proof.
  destruct a as [p|[]|], b as [q|[]|]; simpl; try done.
  intros H. apply Qle_bool_iff. apply Qlt_le_weak, Qnot_le_lt.
  intros Hle. apply Qle_bool_iff in Hle. congruence.
Qed.

Lemma real_le_trans a b c :
  real_le a b = true -> real_le b c = true -> real_le a c = true.
Proof.
  destruct a as [p|[]|], b as [q|[]|], c as [r|[]|]; simpl; try done.
  rewrite !Qle_bool_iff. apply Qle_trans.
Qed.

Lemma row_before_total r1 r2 :
  row_before r1 r2 = false -> row_before r2 r1 = true.
Proof.
  unfold row_before. intros H.
  apply orb_false_iff in H as [Hlt H]. apply Z.ltb_ge in Hlt.
  destruct (row_page_number r2 <? row_page_number r1) eqn:E; [done|].
  apply Z.ltb_ge in E. simpl.
  assert (row_page_number r1 = row_page_number r2) as Heq by lia.
  rewrite Heq, Z.eqb_refl in *. simpl in *. by apply real_le_total.
Qed.

#[global] Instance comes_before_trans : Transitive comes_before.
Proof.
  unfold comes_before, row_before. intros r1 r2 r3 H12 H23.
  apply orb_true_iff in H12, H23. apply orb_true_iff.
  rewrite !andb_true_iff, !Z.ltb_lt, !Z.eqb_eq in *.
  destruct H12 as [?|[? ?]], H23 as [?|[? ?]]; try (left; lia).
  right. split; [lia|]. by eapply real_le_trans.
Qed.

Lemma insert_row_perm r l : insert_row r l ≡ₚ r :: l.
Proof.
  induction l as [|h t IH]; simpl; [done|].
  destruct (row_before r h); [done|]. rewrite IH. apply perm_swap.
Qed.

Lemma order_by_perm rows : order_by rows ≡ₚ rows.
Proof.
  induction rows as [|r rows IH]; simpl; [done|].
  by rewrite insert_row_perm, IH.
Qed.

Lemma insert_row_sorted r l :
  Sorted comes_before l -> Sorted comes_before (insert_row r l).
Proof.
  induction 1 as [|h t Hs IH Hhd]; simpl.
  - by repeat constructor.
  - destruct (row_before r h) eqn:E.
    + constructor; [by constructor|by constructor].
    + constructor; [done|].
      apply row_before_total in E. destruct t as [|h' t]; simpl.
      * by constructor.
      * destruct (row_before r h'); constructor; [done|].
        by inversion Hhd.
Qed.

Lemma order_by_sorted rows : Sorted comes_before (order_by rows).
Proof.
  induction rows as [|r rows IH]; simpl; [constructor|].
  by apply insert_row_sorted.
Qed.

Lemma map_imap {A B C} (h : B -> C) (k : A -> C) (l : list A) :
  forall g : nat -> A -> B,
  (forall i x, h (g i x) = k x) -> map h (imap g l) = map k l.
Proof.
  induction l as [|x l IH]; intros g H; simpl; [done|].
  rewrite H. f_equal. apply IH. intros i y. apply H.
Qed.

(** [save_document] stores the elements in list order. *)
Lemma save_rows_content first_id es :
  map row_content (save_rows first_id es) = map content es
  /\ map row_page_number (save_rows first_id es) = map page_number es.
Proof. unfold save_rows. split; by apply map_imap. Qed.



(** ** What the aggregation reads *)

Lemma filter_map_same {B} (P : DocumentElement -> Prop)
  `{!forall e, Decision (P e)} (g : DocumentElement -> B) es es' :
  (forall e e', same_reading e e' -> (P e <-> P e') /\ g e = g e') ->
  Forall2 same_reading es es' ->
  map g (filter P es) = map g (filter P es').
Proof.
  intros Hsame. induction 1 as [|e e' es es' He _ IH]; [done|].
  destruct (Hsame e e' He) as [HP Hg]. rewrite !filter_cons.
  destruct (decide (P e)), (decide (P e')); try tauto.
  cbn [map]. by rewrite Hg, IH.
Qed.

Lemma map_same {B} (g : DocumentElement -> B) es es' :
  (forall e e', same_reading e e' -> g e = g e') ->
  Forall2 same_reading es es' -> map g es = map g es'.
Proof.
  intros Hsame. induction 1 as [|e e' es es' He _ IH]; [done|].
  cbn [map]. by rewrite (Hsame e e' He), IH.
Qed.

(** The aggregation reads the type, the content and the page number of the
    elements and nothing else: not their position, not their font. *)
Lemma generate_statistics_reads total_pages es es' :
  Forall2 same_reading es es' ->
  _generate_statistics total_pages es = _generate_statistics total_pages es'.
Proof.
  intros H.
  assert (map (fun elem => value (element_type elem)) es
          = map (fun elem => value (element_type elem)) es') as Htypes.
  { apply map_same; [|done]. by intros e e' (-> & _ & _). }
  assert (text_density_per_page total_pages es
          = text_density_per_page total_pages es') as Hdensity.
  { unfold text_density_per_page. apply map_ext. intros p. f_equal.
    apply filter_map_same; [|done]. by intros e e' (_ & -> & ->). }
  assert (hierarchical_counts_per_page es
          = hierarchical_counts_per_page es') as Hdepth.
  { rewrite !hierarchical_counts_tally. f_equal.
    apply filter_map_same; [|done]. by intros e e' (-> & _ & ->). }
  assert (section_distribution_of es = section_distribution_of es') as Hdist.
  { rewrite !section_distribution_tally. f_equal.
    apply filter_map_same; [|done]. by intros e e' (-> & _ & ->). }
  assert (map (fun p => len (split (content p))) (paragraphs es)
          = map (fun p => len (split (content p))) (paragraphs es')) as Hwords.
  { apply filter_map_same; [|done]. by intros e e' (-> & -> & _). }
  unfold _generate_statistics. cbv zeta.
  rewrite Htypes, Hdensity, Hdepth, Hdist.
  destruct (paragraphs es) as [|p ps], (paragraphs es') as [|p' ps'];
    try discriminate; [done|].
  rewrite Hwords. apply (f_equal (@length Z)) in Hwords.
  rewrite !length_map in Hwords. unfold len. by rewrite Hwords.
Qed.

Lemma outcome_bind {A B} (m : run A) (k : A -> run B) h post :
  outcome m h (fun r h' => match r with
                           | Ok a => outcome (k a) h' post
                           | Raise e => post (Raise e) h'
                           end) ->
  outcome (m ≫= k) h post.
Proof.
  unfold outcome, mbind, run_bind. by destruct (m h) as [[a|e] h'].
Qed.

Lemma outcome_mono {A} (m : run A) h (post post' : result A -> store -> Prop) :
  outcome m h post -> (forall r h', post r h' -> post' r h') ->
  outcome m h post'.
Proof. unfold outcome. auto. Qed.

Lemma outcome_ret {A} (a : A) h (post : result A -> store -> Prop) :
  post (Ok a) h -> outcome (mret a) h post.
Proof. done. Qed.

Lemma outcome_lift {A} (r : result A) h (post : result A -> store -> Prop) :
  post r h -> outcome (lift r) h post.
Proof. done. Qed.

Lemma fresh_unused (h : store) : h !! fresh (dom h) = None.
Proof. apply not_elem_of_dom, is_fresh. Qed.

Lemma outcome_new o h (post : result positive -> store -> Prop) :
  (forall l, h !! l = None -> post (Ok l) (<[l := o]> h)) ->
  outcome (new o) h post.
Proof. intros H. apply H, fresh_unused. Qed.

Lemma outcome_put l o h (post : result unit -> store -> Prop) :
  post (Ok tt) (<[l := o]> h) -> outcome (put l o) h post.
Proof. done. Qed.

Lemma outcome_get_elements l es h
  (post : result (list DocumentElement) -> store -> Prop) :
  h !! l = Some (ElementList es) -> post (Ok es) h ->
  outcome (get_elements l) h post.
Proof. unfold outcome, get_elements. by intros ->. Qed.

Lemma outcome_get_ints l xs h (post : result (list Z) -> store -> Prop) :
  h !! l = Some (IntList xs) -> post (Ok xs) h ->
  outcome (get_ints l) h post.
Proof. unfold outcome, get_ints. by intros ->. Qed.

Lemma outcome_get_str_counts l d h
  (post : result (gmap string Z) -> store -> Prop) :
  h !! l = Some (StrCounts d) -> post (Ok d) h ->
  outcome (get_str_counts l) h post.
Proof. unfold outcome, get_str_counts. by intros ->. Qed.

Lemma outcome_get_page_counts l d h
  (post : result (gmap Z Z) -> store -> Prop) :
  h !! l = Some (PageCounts d) -> post (Ok d) h ->
  outcome (get_page_counts l) h post.
Proof. unfold outcome, get_page_counts. by intros ->. Qed.

(** A loop whose body keeps [inv], indexed by the items already visited. *)
Lemma outcome_for_each {A} (inv : list A -> store -> Prop) body
  (post : result unit -> store -> Prop) rest :
  forall visited h,
    inv visited h ->
    (forall seen x h', inv seen h' ->
       outcome (body x) h' (fun r h'' => r = Ok tt /\ inv (seen ++ [x]) h'')) ->
    (forall h', inv (visited ++ rest) h' -> post (Ok tt) h') ->
    outcome (for_each rest body) h post.
Proof.
  induction rest as [|x rest IH]; intros visited h Hinv Hbody Hpost.
  - apply outcome_ret, Hpost. by rewrite app_nil_r.
  - cbn [for_each]. apply outcome_bind.
    eapply outcome_mono; [by apply Hbody|].
    intros r h' [-> Hinv']. apply (IH (visited ++ [x])); [done..|].
    intros h''. rewrite <- app_assoc. apply Hpost.
Qed.

(** The store [h] still holds every object of [h0], unchanged. *)
Lemma kept_insert (h0 h : store) l o :
  h0 ⊆ h -> h !! l = None -> h0 ⊆ <[l := o]> h.
Proof.
  intros Hsub Hl. apply insert_subseteq_r; [|done].
  by eapply lookup_weaken_None.
Qed.

Lemma kept_update (h0 h : store) l o :
  h0 ⊆ h -> h0 !! l = None -> h0 ⊆ <[l := o]> h.
Proof. intros. by apply insert_subseteq_r. Qed.

Ltac kept := repeat first [done | apply kept_insert].

Lemma Counter_snoc keys k :
  Counter (keys ++ [k])
  = <[k := default 0 (Counter keys !! k) + 1]> (Counter keys).
Proof. unfold Counter. by rewrite fold_left_app. Qed.

(** The last block: the sections tallied by page in a dictionary of their
    own, of which the record gets a copy. *)
Lemma section_distribution_outcome {A} (h0 h : store) elements es
  (record : gmap Z Z -> A) :
  h0 ⊆ h -> h0 !! elements = Some (ElementList es) ->
  outcome
    (section_distribution ← new (PageCounts ∅);
     es ← get_elements elements;
     _ ← for_each es
           (fun elem =>
              if decide (element_type elem = SECTION)
              then add_one section_distribution (page_number elem)
              else mret tt);
     distribution ← get_page_counts section_distribution;
     _ ← new (PageCounts distribution);
     mret (record distribution))
    h
    (fun r h' => r = Ok (record (section_distribution_of es)) /\ h0 ⊆ h').
Proof.
  intros Hkept0 Hes.
  apply outcome_bind, outcome_new. intros sd Hsd.
  apply outcome_bind, (outcome_get_elements _ es).
  { eapply lookup_weaken; [done|]. kept. }
  apply outcome_bind.
  apply (outcome_for_each
           (fun seen h' =>
              h0 ⊆ h'
              /\ h' !! sd
                 = Some (PageCounts
                           (fold_left
                              (fun d elem =>
                                 if decide (element_type elem = SECTION)
                                 then increment d (page_number elem)
                                 else d)
                              seen ∅)))
           _ _ es []).
  { split; [kept|]. by rewrite lookup_insert_eq. }
  { intros seen x h' [Hkept Hsections]. rewrite fold_left_app. cbn [fold_left].
    destruct (decide (element_type x = SECTION)).
    - unfold add_one.
      apply outcome_bind, (outcome_get_page_counts _ _ _ _ Hsections).
      apply outcome_put. split; [done|]. split.
      + apply kept_update; [done|]. by eapply lookup_weaken_None.
      + by rewrite lookup_insert_eq.
    - by apply outcome_ret. }
  cbn [app]. intros h4 [Hkept4 Hsections].
  apply outcome_bind, (outcome_get_page_counts _ _ _ _ Hsections).
  fold (section_distribution_of es).
  apply outcome_bind, outcome_new. intros copy Hcopy.
  apply outcome_ret. split; [done|]. kept.
Qed.

(** Started in a store that holds the list [es] under [elements], the
    aggregation returns what [_generate_statistics] returns for [es], and
    every object of the store is left as it was. *)
Lemma run_generate_statistics_refines total_pages elements es h :
  h !! elements = Some (ElementList es) ->
  fst (run_generate_statistics total_pages elements h)
  = _generate_statistics total_pages es
  /\ h ⊆ snd (run_generate_statistics total_pages elements h).
Proof.
  intros Hes.
  change (outcome (run_generate_statistics total_pages elements) h
            (fun r h' => r = _generate_statistics total_pages es /\ h ⊆ h')).
  assert (forall h', h ⊆ h' -> h' !! elements = Some (ElementList es))
    as Hlist by (intros h' ?; by eapply lookup_weaken).
  unfold run_generate_statistics.
  (* Element type counts *)
  apply outcome_bind, outcome_new. intros c Hc.
  apply outcome_bind, (outcome_get_elements _ es).
  { apply Hlist. kept. }
  apply outcome_bind.
  apply (outcome_for_each
           (fun seen h' =>
              h ⊆ h'
              /\ h' !! c
                 = Some (StrCounts
                           (Counter (map (fun elem =>
                                            value (element_type elem)) seen))))
           _ _ es []).
  { split; [kept|]. by rewrite lookup_insert_eq. }
  { intros seen x h' [Hkept Hcounts]. unfold count.
    apply outcome_bind, (outcome_get_str_counts _ _ _ _ Hcounts).
    apply outcome_put. split; [done|]. split.
    - apply kept_update; [done|]. by eapply lookup_weaken_None.
    - rewrite lookup_insert_eq, map_app. cbn [map].
      by rewrite Counter_snoc. }
  cbn [app]. intros h1 [Hkept1 Hcounts].
  apply outcome_bind, (outcome_get_str_counts _ _ _ _ Hcounts). cbv zeta.
  (* Text density per page *)
  apply outcome_bind, outcome_new. intros t Ht.
  apply outcome_bind.
  apply (outcome_for_each
           (fun seen h' =>
              h ⊆ h'
              /\ h' !! t
                 = Some (IntList
                           (map (fun page_num =>
                                   sum (map (fun e => len (content e))
                                          (filter (fun e =>
                                                     page_number e = page_num)
                                                  es)))
                                seen)))
           _ _ (seqZ 1 total_pages) []).
  { split; [kept|]. by rewrite lookup_insert_eq. }
  { intros seen page_num h' [Hkept Hdensity].
    apply outcome_bind, (outcome_get_elements _ es); [by apply Hlist|].
    apply outcome_bind, outcome_new. intros p Hp.
    apply outcome_bind, (outcome_get_elements _ _ _ _ (lookup_insert_eq _ _ _)).
    cbv zeta. unfold append.
    assert (p <> t) as Hpt by congruence.
    apply outcome_bind.
    eapply outcome_get_ints; [by rewrite lookup_insert_ne|].
    apply outcome_put. split; [done|]. split.
    - apply kept_update; [kept|].
      by eapply lookup_weaken_None.
    - by rewrite lookup_insert_eq, map_app. }
  cbn [app]. intros h2 [Hkept2 Hdensity].
  apply outcome_bind, (outcome_get_ints _ _ _ _ Hdensity).
  fold (text_density_per_page total_pages es).
  unfold _generate_statistics. cbv zeta.
  apply outcome_bind, outcome_lift.
  destruct (py_truediv (sum _) (len (text_density_per_page _ _)))
    as [density_mean|e]; [|done].
  cbn [mbind result_bind].
  (* Average hierarchical depth *)
  apply outcome_bind, (outcome_get_elements _ es); [by apply Hlist|].
  apply outcome_bind, outcome_new. intros he Hhe.
  apply outcome_bind, outcome_new. intros hc Hhc.
  assert (hc <> he) as Hne by (intros ->; by rewrite lookup_insert_eq in Hhc).
  apply outcome_bind, (outcome_get_elements _ (hierarchical_elements es)).
  { by rewrite lookup_insert_ne, lookup_insert_eq. }
  apply outcome_bind.
  apply (outcome_for_each
           (fun seen h' =>
              h ⊆ h'
              /\ h' !! hc
                 = Some (PageCounts
                           (fold_left (fun d elem =>
                                         increment d (page_number elem))
                                      seen ∅)))
           _ _ (hierarchical_elements es) []).
  { split; [kept|]. by rewrite lookup_insert_eq. }
  { intros seen x h' [Hkept Hcounts']. unfold add_one.
    apply outcome_bind, (outcome_get_page_counts _ _ _ _ Hcounts').
    apply outcome_put. split; [done|]. split.
    - apply kept_update; [done|]. eapply lookup_weaken_None; [exact Hhc|].
      kept.
    - by rewrite lookup_insert_eq, fold_left_app. }
  cbn [app]. intros h3 [Hkept3 Hdepth].
  apply outcome_bind, (outcome_get_page_counts _ _ _ _ Hdepth).
  fold (hierarchical_counts_per_page es).
  apply outcome_bind, outcome_lift.
  destruct (if decide (size (hierarchical_counts_per_page es) ≠ 0%nat)
            then _ else _) as [avg_hierarchical_depth|e]; [|done].
  cbn [mbind result_bind].
  (* Average paragraph length *)
  apply outcome_bind, (outcome_get_elements _ es); [by apply Hlist|].
  apply outcome_bind, outcome_new. intros ps Hps.
  apply outcome_bind, (outcome_get_elements _ _ _ _ (lookup_insert_eq _ _ _)).
  fold (paragraphs es).
  apply outcome_bind, outcome_lift.
  destruct (paragraphs es) as [|p ps'];
    [|destruct (py_truediv _ (len (p :: ps'))) as [words_mean|e]];
    cbn [mbind result_bind];
    [| |split; [done|kept]];
    (eapply outcome_mono;
     [apply (section_distribution_outcome h); [kept|done]|]);
    by intros r h' [-> ?].
Qed.

Example run_mixed :
  fst (run_generate_statistics 3 1 two_lists) = Ok mixed_statistics
  /\ fst (run_generate_statistics 3 5 one_list) = Ok mixed_statistics.
Proof. vm_compute. split; reflexivity. Qed.

(** C9. The aggregation keeps no state between invocations.  Run statement
    by statement on the objects of the program, it writes to the counter,
    the list and the dictionaries it made itself and leaves every object
    that was there as it was, the list of elements included.  So two
    invocations on lists of the same elements and the same page count end
    alike from any two stores, and a second invocation in the store the first
    one left ends as the first: with the same exception, or with records
    equal in every field; for a page count of at least 1 both return a
    record. *)
Theorem generate_statistics_deterministic total_pages es
  (h1 : store) elements1 (h2 : store) elements2 :
  h1 !! elements1 = Some (ElementList es) ->
  h2 !! elements2 = Some (ElementList es) ->
  fst (run_generate_statistics total_pages elements1 h1)
  = fst (run_generate_statistics total_pages elements2 h2)
  /\ (forall st1 st2,
        fst (run_generate_statistics total_pages elements1 h1) = Ok st1 ->
        fst (run_generate_statistics total_pages elements2 h2) = Ok st2 ->
        title_count st1 = title_count st2
        /\ section_count st1 = section_count st2
        /\ table_count st1 = table_count st2
        /\ image_count st1 = image_count st2
        /\ avg_text_density_per_page st1 = avg_text_density_per_page st2
        /\ avg_hierarchical_depth st1 = avg_hierarchical_depth st2
        /\ avg_paragraph_length st1 = avg_paragraph_length st2
        /\ section_distribution st1 = section_distribution st2)
  /\ h1 ⊆ snd (run_generate_statistics total_pages elements1 h1)
  /\ fst (run_generate_statistics total_pages elements1
            (snd (run_generate_statistics total_pages elements1 h1)))
     = fst (run_generate_statistics total_pages elements1 h1)
  /\ fst (run_generate_statistics total_pages elements1 h1)
     = _generate_statistics total_pages es
  /\ (1 <= total_pages -> fits_in_memory es ->
      exists st,
        fst (run_generate_statistics total_pages elements1 h1) = Ok st
        /\ fst (run_generate_statistics total_pages elements2 h2) = Ok st).
Proof.
  intros Hes1 Hes2.
  destruct (run_generate_statistics_refines total_pages elements1 es h1 Hes1)
    as [Hfirst Hkept].
  destruct (run_generate_statistics_refines total_pages elements2 es h2 Hes2)
    as [Hsecond _].
  assert (snd (run_generate_statistics total_pages elements1 h1) !! elements1
          = Some (ElementList es)) as Hes by (by eapply lookup_weaken).
  destruct (run_generate_statistics_refines total_pages elements1 es _ Hes)
    as [Hagain _].
  rewrite Hagain, Hfirst, Hsecond.
  split; [done|]. split; [|do 3 (split; [done|])].
  - intros st1 st2 -> [= ->]. repeat split.
  - intros Hpages Hfits.
    destruct (generate_statistics_returns total_pages es Hpages Hfits)
      as [st Hst].
    eauto.
Qed.

Lemma generate_statistics_deterministic_witness :
  fst (run_generate_statistics 3 1 two_lists)
  = fst (run_generate_statistics 3 5 one_list)
  /\ two_lists ⊆ snd (run_generate_statistics 3 1 two_lists)
  /\ fst (run_generate_statistics 3 1
            (snd (run_generate_statistics 3 1 two_lists)))
     = fst (run_generate_statistics 3 1 two_lists)
  /\ fst (run_generate_statistics 3 1 two_lists)
     = _generate_statistics 3 mixed_elements.
Proof.
  refine ((fun H => conj (proj1 H)
                      (conj (proj1 (proj2 (proj2 H)))
                         (conj (proj1 (proj2 (proj2 (proj2 H))))
                            (proj1 (proj2 (proj2 (proj2 (proj2 H))))))))
            (generate_statistics_deterministic 3 mixed_elements
               two_lists 1 one_list 5 _ _)).
  - reflexivity.
  - reflexivity.
Defined.

(** * Further properties of the code *)

(** ** The classifier: errors, range, padding *)

(** X1. Font information without ["flags"] raises [KeyError] for every text,
    a list item included; a ["flags"] that is no integer raises [TypeError];
    without ["size"] a list item is still classified and every other text
    raises [KeyError]. *)
Theorem classify_items_errors text font_info :
  (font_info !! "flags" = None ->
   classify_items text font_info = Raise KeyError)
  /\ (forall v, font_info !! "flags" = Some v -> (forall z, v <> PyInt z) ->
      classify_items text font_info = Raise TypeError)
  /\ (forall z, font_info !! "flags" = Some (PyInt z) ->
      font_info !! "size" = None ->
      (list_marker (strip text) ->
       classify_items text font_info = Ok LIST_ITEM)
      /\ (~ list_marker (strip text) ->
          classify_items text font_info = Raise KeyError))
  /\ (forall z s, font_info !! "flags" = Some (PyInt z) ->
      font_info !! "size" = Some (PyStr s) ->
      ~ list_marker (strip text) ->
      classify_items text font_info = Raise TypeError).
Proof.
  unfold classify_items, getitem. split; [|split; [|split]].
  - by intros ->.
  - intros v -> Hv. destruct v as [z| |]; [by destruct (Hv z)|done|done].
  - intros z Hf Hs. rewrite Hf. cbn [mbind result_bind py_and]. split.
    + intros Hm%list_patterns_spec. by rewrite Hm.
    + intros Hm.
      destruct (existsb _ _) eqn:E; [by apply list_patterns_spec in E|].
      by rewrite Hs.
  - intros z s Hf Hs Hm. rewrite Hf. cbn [mbind result_bind py_and].
    destruct (existsb _ _) eqn:E; [by apply list_patterns_spec in E|].
    by rewrite Hs.
Qed.

Lemma classify_items_errors_witness :
  classify_items (py "- item") ∅ = Raise KeyError
  /\ classify_items (py "- item") {[ "flags" := PyInt 0 ]} = Ok LIST_ITEM.
Proof.
  split.
  - apply (proj1 (classify_items_errors (py "- item") ∅)). reflexivity.
  - refine (proj1 (proj1 (proj2 (proj2 (classify_items_errors (py "- item")
              {[ "flags" := PyInt 0 ]}))) 0 _ _) _).
    + reflexivity.
    + reflexivity.
    + apply (marker_dash 45%N 32%N (py "item")); reflexivity.
Defined.

Lemma classify_items_cases text font_info t :
  classify_items text font_info = Ok t ->
  (t = LIST_ITEM /\ list_marker (strip text))
  \/ (~ list_marker (strip text)
      /\ (t = TITLE \/ t = SUBTITLE \/ t = SECTION \/ t = PARAGRAPH)).
Proof.
  unfold classify_items, getitem.
  destruct (font_info !! "flags") as [v|]; [|discriminate].
  cbn [mbind result_bind]. destruct (py_and v 16); [|discriminate].
  cbn [mbind result_bind].
  destruct (existsb _ _) eqn:E.
  { intros [= <-]. left. split; [done|]. by apply list_patterns_spec. }
  assert (~ list_marker (strip text)) as Hno.
  { intros Hm%list_patterns_spec. congruence. }
  destruct (font_info !! "size") as [size|]; [|discriminate].
  cbn [mbind result_bind].
  repeat match goal with
         | |- context [py_ge ?x ?n] =>
             destruct (py_ge x n) as [[]|]; cbn [mbind result_bind andb]
         | |- context [if ?b then _ else _] => destruct b
         end;
    intros [= <-] || discriminate; right; split; auto.
Qed.

(** X2. The classifier never gives [table] or [image]: these two types come
    from the page walk alone. *)
Theorem classify_items_range text font_info t :
  classify_items text font_info = Ok t -> t <> TABLE /\ t <> IMAGE.
Proof.
  intros [[-> _]|[_ [->|[->|[->| ->]]]]]%classify_items_cases; by split.
Qed.

Lemma classify_items_range_witness :
  SECTION <> TABLE /\ SECTION <> IMAGE.
Proof.
  apply (classify_items_range (py "Overview")
           {[ "size" := PyFloat (FFinite 12); "flags" := PyInt 0 ]}).
  vm_compute. reflexivity.
Defined.

Lemma lstrip_all_space s :
  Forall (fun c => is_space c = true) s -> lstrip s = [].
Proof. induction 1 as [|c s Hc _ IH]; simpl; [done|by rewrite Hc]. Qed.

Lemma lstrip_space_app pre s :
  Forall (fun c => is_space c = true) pre -> lstrip (pre ++ s) = lstrip s.
Proof. induction 1 as [|c pre Hc _ IH]; simpl; [done|by rewrite Hc]. Qed.

Lemma lstrip_app s post :
  lstrip (s ++ post)
  = match lstrip s with [] => lstrip post | _ => lstrip s ++ post end.
Proof.
  induction s as [|c s IH]; simpl; [by destruct (lstrip post)|].
  by destruct (is_space c).
Qed.

Lemma rstrip_all_space s :
  Forall (fun c => is_space c = true) s -> rstrip s = [].
Proof. induction 1 as [|c s Hc _ IH]; simpl; [done|by rewrite IH, Hc]. Qed.

Lemma rstrip_app_space s post :
  Forall (fun c => is_space c = true) post -> rstrip (s ++ post) = rstrip s.
Proof.
  intros Hpost. induction s as [|c s IH]; simpl.
  - by apply rstrip_all_space.
  - by rewrite IH.
Qed.

(** Whitespace around a text does not survive [strip]. *)
Lemma strip_padding pre s post :
  Forall (fun c => is_space c = true) pre ->
  Forall (fun c => is_space c = true) post ->
  strip (pre ++ s ++ post) = strip s.
Proof.
  intros Hpre Hpost. unfold strip.
  rewrite lstrip_space_app, lstrip_app by done.
  destruct (lstrip s) as [|c t] eqn:E.
  - by rewrite lstrip_all_space.
  - by rewrite rstrip_app_space.
Qed.

(** X3. Whitespace before and after a text never changes how it is
    classified, nor whether the classifier raises. *)
Theorem classify_items_padding pre text post font_info :
  Forall (fun c => is_space c = true) pre ->
  Forall (fun c => is_space c = true) post ->
  classify_items (pre ++ text ++ post) font_info
  = classify_items text font_info.
Proof.
  intros Hpre Hpost. unfold classify_items.
  by rewrite strip_padding.
Qed.

Lemma classify_items_padding_witness :
  classify_items (py "   1. Scope  ")
    {[ "size" := PyFloat (FFinite 11); "flags" := PyInt 0 ]}
  = classify_items (py "1. Scope")
      {[ "size" := PyFloat (FFinite 11); "flags" := PyInt 0 ]}.
Proof.
  apply (classify_items_padding (py "   ") (py "1. Scope") (py "  ")).
  - repeat constructor.
  - repeat constructor.
Defined.

Lemma py_ge_numeric v n : numeric v -> exists b, py_ge v n = Ok b.
Proof. destruct v; simpl; [eauto|eauto|done]. Qed.

(** X4. For a text without list marker, a font that reaches each of the
    thresholds 10, 14 and 16 the other font reaches, and is at least as bold,
    never gives a lower heading level (paragraph below section below subtitle
    below title). *)
Theorem classify_items_monotone text font_info font_info'
  size size' flags flags' :
  font_info !! "size" = Some size ->
  font_info !! "flags" = Some (PyInt flags) ->
  font_info' !! "size" = Some size' ->
  font_info' !! "flags" = Some (PyInt flags') ->
  numeric size -> numeric size' ->
  ~ list_marker (strip text) ->
  (forall n, n = 10 \/ n = 14 \/ n = 16 ->
             py_ge size n = Ok true -> py_ge size' n = Ok true) ->
  (Z.land flags 16 <> 0 -> Z.land flags' 16 <> 0) ->
  exists t t',
    classify_items text font_info = Ok t
    /\ classify_items text font_info' = Ok t'
    /\ heading_rank t <= heading_rank t'.
Proof.
  intros Hs Hf Hs' Hf' Hn Hn' Hno Hsize Hbold.
  rewrite (classify_items_unfold _ _ _ _ Hf Hs),
          (classify_items_unfold _ _ _ _ Hf' Hs'). cbv zeta.
  destruct (existsb _ _) eqn:E; [by apply list_patterns_spec in E|].
  pose proof (Hsize 16 ltac:(tauto)) as H16.
  pose proof (Hsize 14 ltac:(tauto)) as H14.
  pose proof (Hsize 10 ltac:(tauto)) as H10.
  destruct (py_ge_numeric size 16 Hn) as [a16 Ea16].
  destruct (py_ge_numeric size 14 Hn) as [a14 Ea14].
  destruct (py_ge_numeric size 10 Hn) as [a10 Ea10].
  destruct (py_ge_numeric size' 16 Hn') as [b16 Eb16].
  destruct (py_ge_numeric size' 14 Hn') as [b14 Eb14].
  destruct (py_ge_numeric size' 10 Hn') as [b10 Eb10].
  rewrite Ea16, Ea14, Ea10, Eb16, Eb14, Eb10 in *.
  cbn [mbind result_bind].
  assert ((Z.land flags 16 =? 0) = false -> (Z.land flags' 16 =? 0) = false)
    as Hb by (rewrite !Z.eqb_neq; done).
  destruct (Z.land flags 16 =? 0), (Z.land flags' 16 =? 0);
    try (specialize (Hb eq_refl); discriminate);
    destruct a16, a14, a10;
    try (specialize (H16 eq_refl); injection H16 as ->);
    try (specialize (H14 eq_refl); injection H14 as ->);
    try (specialize (H10 eq_refl); injection H10 as ->);
    destruct (len (split (strip text)) <=? 10),
             (len (split (strip text)) <=? 20);
    cbn [negb andb orb mbind result_bind];
    repeat match goal with
           | |- context [if ?b then _ else _] => destruct b
           end;
    do 2 eexists; (split; [reflexivity|split; [reflexivity|simpl; lia]]).
Qed.

Lemma classify_items_monotone_witness :
  exists t t',
    classify_items (py "Overview")
      {[ "size" := PyFloat (FFinite 12); "flags" := PyInt 0 ]} = Ok t
    /\ classify_items (py "Overview")
         {[ "size" := PyFloat (FFinite 11); "flags" := PyInt 16 ]} = Ok t'
    /\ heading_rank t <= heading_rank t'.
Proof.
  refine (classify_items_monotone (py "Overview")
    {[ "size" := PyFloat (FFinite 12); "flags" := PyInt 0 ]}
    {[ "size" := PyFloat (FFinite 11); "flags" := PyInt 16 ]}
    (PyFloat (FFinite 12)) (PyFloat (FFinite 11)) 0 16 _ _ _ _ _ _ _ _ _).
  - reflexivity.
  - reflexivity.
  - reflexivity.
  - reflexivity.
  - exact I.
  - exact I.
  - intros H. apply list_patterns_spec in H. vm_compute in H. discriminate.
  - intros n [-> | [-> | ->] ]; vm_compute; congruence.
  - intros _. vm_compute. discriminate.
Defined.

(** ** List items have a body *)

Ltac bool_to_prop :=
  repeat match goal with
         | H : _ || _ = true |- _ => apply orb_true_iff in H as [H|H]
         | H : _ && _ = true |- _ => apply andb_true_iff in H as [? H]
         | H : (_ =? _)%N = true |- _ => apply N.eqb_eq in H
         | H : (_ <=? _)%N = true |- _ => apply N.leb_le in H
         | H : (_ <? _)%N = true |- _ => apply N.ltb_lt in H
         end.

Lemma not_space_between (lo hi c : N) :
  (lo <= c)%N -> (c <= hi)%N -> (32 < lo)%N -> (hi < 133)%N ->
  is_space c = false.
Proof.
  intros. unfold is_space.
  repeat match goal with
         | |- context [(?a <=? ?b)%N] =>
             destruct (N.leb_spec a b); cbn [andb orb]
         | |- context [(?a =? ?b)%N] =>
             destruct (N.eqb_spec a b); cbn [andb orb]
         end; try reflexivity; lia.
Qed.

Lemma dash_not_space c : is_dash_star_plus c = true -> is_space c = false.
Proof.
  unfold is_dash_star_plus. intros H. bool_to_prop; subst; reflexivity.
Qed.

Lemma bullet_not_space c : is_bullet c = true -> is_space c = false.
Proof. unfold is_bullet. intros H. bool_to_prop; subst; reflexivity. Qed.

Lemma letter_not_space c : is_ascii_letter c = true -> is_space c = false.
Proof.
  unfold is_ascii_letter. intros H. bool_to_prop.
  - apply (not_space_between 97 122); lia.
  - apply (not_space_between 65 90); lia.
Qed.

Lemma in_run_not_space lo n c :
  In (lo, n) decimal_runs -> (lo <= c)%N -> (c < lo + n)%N ->
  is_space c = false.
Proof.
  intros Hin Hlo Hhi. unfold decimal_runs in Hin. simpl in Hin.
  repeat (destruct Hin as [[= <- <-]|Hin];
          [unfold is_space;
           repeat match goal with
                  | |- context [(?a <=? ?b)%N] =>
                      destruct (N.leb_spec a b); cbn [andb orb]
                  | |- context [(?a =? ?b)%N] =>
                      destruct (N.eqb_spec a b); cbn [andb orb]
                  end; try reflexivity; lia|]).
  destruct Hin.
Qed.

Lemma decimal_not_space c : is_decimal c = true -> is_space c = false.
Proof.
  unfold is_decimal. intros ([lo n] & Hin & H)%existsb_exists.
  simpl in H. apply andb_true_iff in H as [Hlo Hhi].
  apply N.leb_le in Hlo. apply N.ltb_lt in Hhi.
  by apply (in_run_not_space lo n).
Qed.

Lemma split_from_word a : forall cur rest,
  Forall (fun c => is_space c = false) a ->
  split_from cur (a ++ rest) = split_from (rev a ++ cur) rest.
Proof.
  induction a as [|c a IH]; intros cur rest Ha; [done|].
  inversion Ha; subst. simpl. rewrite H1, IH by done.
  by rewrite <- app_assoc.
Qed.

Lemma split_from_some s : forall cur,
  cur <> [] \/ Exists (fun c => is_space c = false) s ->
  (1 <= length (split_from cur s))%nat.
Proof.
  induction s as [|c s IH]; intros cur H; simpl.
  - destruct H as [H|H]; [|by inversion H]. destruct cur; [done|simpl; lia].
  - destruct (is_space c) eqn:Hc.
    + destruct cur; [|simpl; lia]. apply IH. right.
      destruct H as [H|H]; [done|]. inversion H; subst; [congruence|done].
    + apply IH. by left.
Qed.

(** A string that starts with a word, then a whitespace, and holds another
    word later, splits into at least two words. *)
Lemma split_two_words a w rest :
  a <> [] -> Forall (fun c => is_space c = false) a ->
  is_space w = true ->
  Exists (fun c => is_space c = false) rest ->
  2 <= len (split (a ++ w :: rest)).
Proof.
  intros Ha Hword Hw Hrest. unfold split, len.
  rewrite split_from_word by done. simpl. rewrite Hw, app_nil_r.
  destruct (rev a) eqn:E.
  - apply (f_equal (@length N)) in E. rewrite length_rev in E.
    destruct a; [done|discriminate].
  - simpl. pose proof (split_from_some rest [] (or_intror Hrest)). lia.
Qed.

Lemma stripped_tail_word head w rest :
  is_space w = true ->
  (forall c, last (head ++ w :: rest) = Some c -> is_space c = false) ->
  Exists (fun c => is_space c = false) rest.
Proof.
  intros Hw Hlast. destruct (last rest) as [y|] eqn:El.
  - apply Exists_exists. exists y. split; [by apply last_Some_elem_of|].
    apply Hlast. by rewrite last_app, last_cons, El.
  - specialize (Hlast w). rewrite last_app, last_cons, El in Hlast.
    specialize (Hlast eq_refl). congruence.
Qed.

Lemma marker_two_words text :
  list_marker (strip text) -> 2 <= len (split (strip text)).
Proof.
  intros H. pose proof (rstrip_last (lstrip text)) as Hlast.
  fold (strip text) in Hlast.
  destruct H as [c w rest Hc Hw|d ds p w rest Hds Hp Hw
                |c p w rest Hc Hp Hw|c w rest Hc Hw].
  - apply (split_two_words [c]); [done| |done|].
    + constructor; [by apply bullet_not_space|done].
    + by apply (stripped_tail_word [c] w).
  - assert (is_space p = false) as Hp'.
    { unfold is_dot_or_paren in Hp. bool_to_prop; subst; reflexivity. }
    replace ((d :: ds) ++ p :: w :: rest)
      with (((d :: ds) ++ [p]) ++ w :: rest) in *
      by (by rewrite <- app_assoc).
    apply split_two_words; [done| |done|].
    + apply Forall_app. split; [|by constructor].
      eapply Forall_impl; [exact Hds|]. intros x. apply decimal_not_space.
    + by eapply stripped_tail_word.
  - assert (is_space p = false) as Hp'.
    { unfold is_dot_or_paren in Hp. bool_to_prop; subst; reflexivity. }
    apply (split_two_words [c; p]); [done| |done|].
    + repeat constructor; [by apply letter_not_space|done].
    + by apply (stripped_tail_word [c; p] w).
  - apply (split_two_words [c]); [done| |done|].
    + constructor; [by apply dash_not_space|done].
    + by apply (stripped_tail_word [c] w).
Qed.

(** X5. [list_item] is returned only for a text whose stripped form starts
    with a list marker, and such a text has at least two words: a marker with
    nothing behind it is not a list item. *)
Theorem list_item_has_body text font_info :
  classify_items text font_info = Ok LIST_ITEM ->
  list_marker (strip text) /\ 2 <= len (split (strip text)).
Proof.
  intros [[_ Hm]|[_ [?|[?|[?|?]]]]]%classify_items_cases; try discriminate.
  split; [done|by apply marker_two_words].
Qed.

Lemma list_item_has_body_witness :
  list_marker (strip (py " * milk")) /\ 2 <= len (split (strip (py " * milk"))).
Proof.
  apply (list_item_has_body (py " * milk")
           {[ "size" := PyFloat (FFinite 9); "flags" := PyInt 0 ]}).
  vm_compute. reflexivity.
Defined.

Example bare_marker_is_no_list_item :
  classify_items (py "-  ")
    {[ "size" := PyFloat (FFinite 9); "flags" := PyInt 0 ]} = Ok PARAGRAPH.
Proof. vm_compute. reflexivity. Qed.

(** ** The page walk: what every element carries *)

Lemma replace_keeps (P : N -> Prop) old new s :
  Forall P new -> Forall P s -> Forall P (replace old new s).
Proof.
  intros Hnew. unfold replace. induction 1 as [|c s Hc _ IH]; simpl; [done|].
  apply Forall_app. split; [|done].
  destruct (c =? old)%N; [done|by constructor].
Qed.

Lemma replace_removes old new s :
  Forall (fun c => c <> old) new -> Forall (fun c => c <> old) (replace old new s).
Proof.
  intros Hnew. unfold replace. induction s as [|c s IH]; simpl; [done|].
  apply Forall_app. split; [|done].
  destruct (N.eqb_spec c old); [done|by constructor].
Qed.

Lemma replace_app old new s t :
  replace old new (s ++ t) = replace old new s ++ replace old new t.
Proof. unfold replace. apply flat_map_app. Qed.

Lemma replace_other old new c :
  c <> old -> replace old new [c] = [c].
Proof.
  intros H. unfold replace. simpl.
  destruct (N.eqb_spec c old); [done|reflexivity].
Qed.

Lemma not_space_not_break c :
  is_space c = false -> c <> newline /\ c <> tab.
Proof. split; intros ->; discriminate. Qed.

(** The stored content of a stripped text. *)
Lemma stored_content_shape s :
  s <> [] ->
  (forall c t, s = c :: t -> is_space c = false) ->
  (forall c, last s = Some c -> is_space c = false) ->
  let stored := replace tab [] (replace newline (py " ") s) in
  Forall (fun c => c <> newline /\ c <> tab) stored
  /\ (exists c t, stored = c :: t /\ is_space c = false)
  /\ (forall c, last stored = Some c -> is_space c = false).
Proof.
  intros Hne Hhead Hlast stored. subst stored. split; [|split].
  - apply Forall_and. split.
    + apply replace_keeps; [done|].
      apply replace_removes. by repeat constructor.
    + apply replace_removes. done.
  - destruct s as [|c t]; [done|]. pose proof (Hhead c t eq_refl) as Hc.
    destruct (not_space_not_break c Hc) as [Hn Ht].
    change (c :: t) with ([c] ++ t).
    rewrite !replace_app, (replace_other newline), (replace_other tab) by done.
    simpl. eauto.
  - destruct (last s) as [y|] eqn:El; [|by apply last_None in El].
    apply last_Some in El as [l' ->]. pose proof (Hlast y eq_refl) as Hy.
    destruct (not_space_not_break y Hy) as [Hn Ht].
    rewrite !replace_app, (replace_other newline), (replace_other tab) by done.
    intros c. rewrite last_snoc. by intros [= <-].
Qed.

Lemma text_element_inv block ls pn element :
  text_element block ls pn = Ok (Some element) ->
  strip (run_text ls) <> []
  /\ classify_items (run_text ls) (collect_block ls).2
     = Ok (element_type element)
  /\ content element
     = replace tab [] (replace newline (py " ") (strip (run_text ls)))
  /\ page_number element = pn
  /\ font_info element = (collect_block ls).2.
Proof.
  unfold text_element. cbv zeta. rewrite collect_block_text.
  destruct (strip (run_text ls)) eqn:E; [discriminate|].
  destruct (classify_items _ _) as [ty|]; [|discriminate].
  cbn [mbind result_bind]. intros [= <-]. by repeat split.
Qed.

(** X6. An element made from a text block carries the given page number, a
    type other than [table] and [image], the font information of the first
    span of the block, and a content without newline or tab that neither
    starts nor ends with whitespace. *)
Theorem text_element_invariants block ls pn element :
  text_element block ls pn = Ok (Some element) ->
  page_number element = pn
  /\ element_type element <> TABLE /\ element_type element <> IMAGE
  /\ (exists span spans,
        concat ls = span :: spans
        /\ font_info element = span_font_info span)
  /\ Forall (fun c => c <> newline /\ c <> tab) (content element)
  /\ (exists c t, content element = c :: t /\ is_space c = false)
  /\ (forall c, last (content element) = Some c -> is_space c = false).
Proof.
  intros (Hne & Hty & Hc & Hp & Hf)%text_element_inv.
  split; [done|].
  assert (element_type element <> TABLE /\ element_type element <> IMAGE)
    as [? ?].
  { apply classify_items_cases in Hty as [[-> _]|[_ [->|[->|[->| ->]]]]];
      by split. }
  split; [done|]. split; [done|]. split.
  - rewrite Hf, collect_block_font.
    destruct (concat ls) as [|span spans] eqn:E; [|eauto].
    exfalso. apply Hne. unfold run_text. by rewrite E.
  - rewrite Hc. apply stored_content_shape; [done| |].
    + apply strip_head.
    + apply rstrip_last.
Qed.

Lemma text_element_invariants_witness :
  exists element,
    text_element tabbed_block tabbed_lines 7 = Ok (Some element)
    /\ page_number element = 7
    /\ Forall (fun c => c <> newline /\ c <> tab) (content element).
Proof.
  eexists. split; [vm_compute; reflexivity|].
  refine ((fun H => conj (proj1 H) (proj1 (proj2 (proj2 (proj2 (proj2 H))))))
            (text_element_invariants tabbed_block tabbed_lines 7 _ _)).
  vm_compute. reflexivity.
Defined.

(** ** The page walk: one page, then the document *)

Lemma extract_page_spec page pn :
  _extract_page_elements page pn = Ok (page_items page pn).
Proof.
  unfold _extract_page_elements, page_items.
  rewrite extract_blocks_spec. cbn [mbind result_bind].
  by rewrite app_nil_l, <- app_assoc.
Qed.

Lemma extract_pages_spec doc : forall k acc,
  extract_pages doc k acc = Ok (acc ++ document_items doc k).
Proof.
  induction doc as [|page doc IH]; intros k acc; simpl.
  - by rewrite app_nil_r.
  - rewrite extract_page_spec. cbn [mbind result_bind].
    by rewrite IH, <- app_assoc.
Qed.

Lemma block_element_Some pn block element :
  block_element pn block = Some element ->
  exists ls, lines block = Some ls
             /\ text_element block ls pn = Ok (Some element).
Proof.
  unfold block_element. destruct (lines block) as [ls|]; [|discriminate].
  destruct (text_element block ls pn) as [made|] eqn:E; [|discriminate].
  intros ->. eauto.
Qed.

Lemma filter_all {A} (P : A -> Prop) `{!forall x, Decision (P x)} l :
  Forall P l -> filter P l = l.
Proof.
  induction 1 as [|x l Hx _ IH]; [done|].
  by rewrite filter_cons, decide_True, IH.
Qed.

Lemma filter_none {A} (P : A -> Prop) `{!forall x, Decision (P x)} l :
  Forall (fun x => ~ P x) l -> filter P l = [].
Proof.
  induction 1 as [|x l Hx _ IH]; [done|].
  by rewrite filter_cons, decide_False.
Qed.

Lemma Forall_imap {A B} (P : B -> Prop) (l : list A) :
  forall f : nat -> A -> B, (forall i x, P (f i x)) -> Forall P (imap f l).
Proof.
  induction l as [|x l IH]; intros f H; simpl; constructor; [done|].
  apply IH. intros i y. apply H.
Qed.

Lemma Forall_omap {A B} (P : B -> Prop) (f : A -> option B) (l : list A) :
  (forall x y, f x = Some y -> P y) -> Forall P (omap f l).
Proof.
  intros H. induction l as [|x l IH]; simpl; [done|].
  destruct (f x) as [y|] eqn:E; [constructor; eauto|done].
Qed.

Lemma length_omap_le {A B} (f : A -> option B) (l : list A) :
  (length (omap f l) <= length l)%nat.
Proof.
  induction l as [|x l IH]; csimpl; [done|].
  destruct (f x); csimpl; lia.
Qed.

(** The three kinds of a page, each with a property of its own. *)
Lemma page_items_Forall (P : DocumentElement -> Prop) page pn :
  (forall block ls e,
     text_element block ls pn = Ok (Some e) -> P e) ->
  (forall i rect, P (image_element pn i rect)) ->
  (forall i table, P (table_element pn i table)) ->
  Forall P (page_items page pn).
Proof.
  intros Htext Himage Htable. unfold page_items.
  rewrite !Forall_app. split; [|split].
  - apply Forall_omap. intros block e (ls & _ & He)%block_element_Some. eauto.
  - by apply Forall_imap.
  - by apply Forall_imap.
Qed.

Lemma text_element_type block ls pn e :
  text_element block ls pn = Ok (Some e) ->
  element_type e <> TABLE /\ element_type e <> IMAGE.
Proof.
  intros (_ & Hty & _)%text_element_inv.
  apply classify_items_cases in Hty as [[-> _]|[_ [->|[->|[->| ->]]]]];
    by split.
Qed.

Lemma page_items_images page pn :
  filter (fun e => element_type e = IMAGE) (page_items page pn)
  = imap (image_element pn) (image_list page).
Proof.
  unfold page_items. rewrite !filter_app.
  rewrite (filter_none _ (omap _ _)), (filter_all _ (imap (image_element _) _)),
          (filter_none _ (imap (table_element _) _)).
  - by rewrite app_nil_r.
  - by apply Forall_imap.
  - by apply Forall_imap.
  - apply Forall_omap. intros block e (ls & _ & He)%block_element_Some.
    by apply text_element_type in He as [_ ?].
Qed.

Lemma page_items_tables page pn :
  filter (fun e => element_type e = TABLE) (page_items page pn)
  = imap (table_element pn) (tables page).
Proof.
  unfold page_items. rewrite !filter_app.
  rewrite (filter_none _ (omap _ _)), (filter_none _ (imap (image_element _) _)),
          (filter_all _ (imap (table_element _) _)).
  - done.
  - by apply Forall_imap.
  - by apply Forall_imap.
  - apply Forall_omap. intros block e (ls & _ & He)%block_element_Some.
    by apply text_element_type in He as [? _].
Qed.

(** X7. The walk over a page never raises. Every element it gives carries
    the page number it was called with; it gives one [image] element for each
    image and one [table] element for each table of the page, both without
    font information, and at most one element for each block. *)
Theorem page_walk_invariants page pn :
  exists elements,
    _extract_page_elements page pn = Ok elements
    /\ Forall (fun e => page_number e = pn) elements
    /\ len (filter (fun e => element_type e = IMAGE) elements)
       = len (image_list page)
    /\ len (filter (fun e => element_type e = TABLE) elements)
       = len (tables page)
    /\ len elements
       <= len (blocks page) + len (image_list page) + len (tables page)
    /\ Forall (fun e => element_type e = IMAGE \/ element_type e = TABLE ->
                        font_info e = ∅) elements.
Proof.
  exists (page_items page pn). split; [apply extract_page_spec|].
  split; [|split; [|split; [|split]]].
  - apply page_items_Forall; [|done|done].
    by intros block ls e (_ & _ & _ & ? & _)%text_element_inv.
  - rewrite page_items_images. unfold len. by rewrite length_imap.
  - rewrite page_items_tables. unfold len. by rewrite length_imap.
  - unfold page_items, len. rewrite !length_app, !length_imap.
    pose proof (length_omap_le (block_element pn) (blocks page)). lia.
  - apply page_items_Forall; [|done|done].
    intros block ls e [? ?]%text_element_type [?|?]; done.
Qed.

Lemma document_items_pages doc : forall k,
  Forall (fun e => k < page_number e <= k + len doc) (document_items doc k)
  /\ StronglySorted page_le (document_items doc k).
Proof.
  induction doc as [|page doc IH]; intros k; simpl.
  - split; constructor.
  - destruct (IH (k + 1)) as [Hrange Hsorted]. rewrite len_cons.
    assert (Forall (fun e => page_number e = k + 1)
              (page_items page (k + 1))) as Hpage.
    { apply page_items_Forall; [|done|done].
      by intros block ls e (_ & _ & _ & ? & _)%text_element_inv. }
    split.
    + apply Forall_app. split.
      * eapply Forall_impl; [exact Hpage|]. simpl. intros e ->.
        pose proof (len_nonneg doc). lia.
      * eapply Forall_impl; [exact Hrange|]. simpl. intros e ?. lia.
    + apply StronglySorted_app_2; [| |done].
      * intros e e' He He'. rewrite Forall_forall in Hpage, Hrange.
        unfold page_le. rewrite (Hpage e He).
        specialize (Hrange e' He'). simpl in Hrange. lia.
      * clear -Hpage.
        induction Hpage as [|e l He Hl IHl]; constructor; [exact IHl|].
        eapply Forall_impl; [exact Hl|]. simpl. intros e' He'.
        unfold page_le. lia.
Qed.

Lemma extract_structure_inv doc elements stats :
  extract_structure doc = Ok (elements, stats) ->
  elements = document_items doc 0
  /\ _generate_statistics (len doc) elements = Ok stats.
Proof.
  unfold extract_structure. rewrite extract_pages_spec, app_nil_l.
  cbn [mbind result_bind].
  destruct (_generate_statistics _ _) as [st|] eqn:E; [|discriminate].
  cbn [mbind result_bind]. by intros [= <- <-].
Qed.

(** X8. The elements [extract_structure] returns carry page numbers between
    1 and the number of pages, and come in page order. *)
Theorem extract_structure_pages doc elements stats :
  extract_structure doc = Ok (elements, stats) ->
  Forall (fun e => 1 <= page_number e <= len doc) elements
  /\ StronglySorted page_le elements.
Proof.
  intros [-> _]%extract_structure_inv.
  destruct (document_items_pages doc 0) as [Hrange Hsorted].
  split; [|done]. eapply Forall_impl; [exact Hrange|].
  simpl. intros e ?. lia.
Qed.

Lemma extract_structure_pages_witness :
  exists elements stats,
    extract_structure [two_block_page] = Ok (elements, stats)
    /\ Forall (fun e => 1 <= page_number e <= 1) elements
    /\ StronglySorted page_le elements.
Proof.
  eexists. eexists. split; [vm_compute; reflexivity|].
  eapply (extract_structure_pages [two_block_page]).
  vm_compute. reflexivity.
Defined.

Lemma document_items_images doc : forall k,
  len (filter (fun e => element_type e = IMAGE) (document_items doc k))
  = sum (map (fun page => len (image_list page)) doc).
Proof.
  induction doc as [|page doc IH]; intros k; simpl; [done|].
  rewrite filter_app, page_items_images, sum_cons, <- (IH (k + 1)).
  unfold len. rewrite length_app, length_imap. lia.
Qed.

Lemma document_items_tables doc : forall k,
  len (filter (fun e => element_type e = TABLE) (document_items doc k))
  = sum (map (fun page => len (tables page)) doc).
Proof.
  induction doc as [|page doc IH]; intros k; simpl; [done|].
  rewrite filter_app, page_items_tables, sum_cons, <- (IH (k + 1)).
  unfold len. rewrite length_app, length_imap. lia.
Qed.

(** X9. In what [extract_structure] returns, [image_count] is the number of
    images and [table_count] the number of tables the renderer reported over
    all pages: no text block is ever counted as one. *)
Theorem extract_structure_counts doc elements stats :
  extract_structure doc = Ok (elements, stats) ->
  image_count stats = sum (map (fun page => len (image_list page)) doc)
  /\ table_count stats = sum (map (fun page => len (tables page)) doc).
Proof.
  intros [-> Hst]%extract_structure_inv.
  apply generate_statistics_fields in Hst as (_ & _ & Ht & Hi & _).
  by rewrite Ht, Hi, document_items_images, document_items_tables.
Qed.

Lemma extract_structure_counts_witness :
  exists elements stats,
    extract_structure [two_block_page] = Ok (elements, stats)
    /\ image_count stats = 0 /\ table_count stats = 0.
Proof.
  eexists. eexists. split; [vm_compute; reflexivity|].
  eapply (extract_structure_counts [two_block_page]).
  vm_compute. reflexivity.
Defined.

(** X10. [extract_structure] raises [ZeroDivisionError] on a document
    without pages; on a document with a page whose elements fit in memory it
    returns the elements of the pages in order together with statistics. *)
Theorem extract_structure_returns doc :
  (doc = [] -> extract_structure doc = Raise ZeroDivisionError)
  /\ (doc <> [] -> fits_in_memory (document_items doc 0) ->
      exists stats,
        extract_structure doc = Ok (document_items doc 0, stats)).
Proof.
  unfold extract_structure. rewrite extract_pages_spec, app_nil_l.
  cbn [mbind result_bind]. split.
  - intros ->. reflexivity.
  - intros Hne Hfit.
    destruct (generate_statistics_returns (len doc) (document_items doc 0))
      as [st Hst]; [|done|].
    + destruct doc; [done|]. rewrite len_cons.
      pose proof (len_nonneg doc). lia.
    + rewrite Hst. cbn [mbind result_bind]. eauto.
Qed.

Lemma extract_structure_returns_witness :
  exists stats,
    extract_structure [two_block_page]
    = Ok (document_items [two_block_page] 0, stats).
Proof.
  apply (proj2 (extract_structure_returns [two_block_page])).
  - discriminate.
  - vm_compute. reflexivity.
Defined.

(** X11. For what [extract_structure] returns, the text density is the
    content length of all elements divided by the number of pages, rounded to
    two places: no extracted element lies on a page the average leaves out. *)
Theorem extract_structure_density doc elements stats :
  extract_structure doc = Ok (elements, stats) ->
  exists mean,
    py_truediv (sum (map (fun e => len (content e)) elements)) (len doc)
    = Ok mean
    /\ avg_text_density_per_page stats = PyFloat (py_round mean 2).
Proof.
  intros H. destruct (extract_structure_inv _ _ _ H) as [-> Hst].
  apply generate_statistics_fields in Hst
    as (_ & _ & _ & _ & (mean & Hm & Hd) & _).
  exists mean. split; [|done].
  rewrite text_density_sum, text_density_len in Hm by apply len_nonneg.
  rewrite filter_all in Hm; [done|].
  destruct (document_items_pages doc 0) as [Hrange _].
  eapply Forall_impl; [exact Hrange|]. simpl. intros e ?. lia.
Qed.

Lemma extract_structure_density_witness :
  exists elements stats mean,
    extract_structure [two_block_page] = Ok (elements, stats)
    /\ py_truediv (sum (map (fun e => len (content e)) elements)) 1 = Ok mean
    /\ avg_text_density_per_page stats = PyFloat (py_round mean 2).
Proof.
  eexists. eexists.
  destruct (extract_structure_density [two_block_page]
              (document_items [two_block_page] 0)
              (match _generate_statistics 1
                       (document_items [two_block_page] 0) with
               | Ok st => st
               | Raise _ => one_section_statistics
               end)) as [mean H].
  - vm_compute. reflexivity.
  - exists mean. split; [vm_compute; reflexivity|exact H].
Defined.

(** ** The aggregation: counts, paragraphs, sections, order *)

Lemma type_counts_bound es :
  len (filter (fun e => element_type e = TITLE) es)
  + len (filter (fun e => element_type e = SECTION) es)
  + len (filter (fun e => element_type e = TABLE) es)
  + len (filter (fun e => element_type e = IMAGE) es)
  <= len es.
Proof.
  induction es as [|e es IH]; [done|].
  rewrite !filter_cons, len_cons.
  repeat case_decide; rewrite ?len_cons; try lia; congruence.
Qed.

(** X12. Each of the four counts is the number of elements of its type;
    subtitles, paragraphs and list items are in none of them, so the counts
    add up to at most the number of elements. *)
Theorem element_counts_spec total_pages es st :
  _generate_statistics total_pages es = Ok st ->
  title_count st = len (filter (fun e => element_type e = TITLE) es)
  /\ section_count st = len (filter (fun e => element_type e = SECTION) es)
  /\ table_count st = len (filter (fun e => element_type e = TABLE) es)
  /\ image_count st = len (filter (fun e => element_type e = IMAGE) es)
  /\ title_count st + section_count st + table_count st + image_count st
     <= len es.
Proof.
  intros (Ht & Hs & Hb & Hi & _)%generate_statistics_fields.
  rewrite Ht, Hs, Hb, Hi. repeat split. apply type_counts_bound.
Qed.

Lemma element_counts_spec_witness :
  section_count one_section_statistics
  = len (filter (fun e => element_type e = SECTION) one_section)
  /\ title_count one_section_statistics
     + section_count one_section_statistics
     + table_count one_section_statistics
     + image_count one_section_statistics <= len one_section.
Proof.
  refine ((fun H => conj (proj1 (proj2 H))
                        (proj2 (proj2 (proj2 (proj2 H)))))
            (element_counts_spec 5 one_section one_section_statistics _)).
  vm_compute. reflexivity.
Defined.

Lemma generate_statistics_paragraph total_pages es st :
  _generate_statistics total_pages es = Ok st ->
  paragraph_mean (paragraphs es) = Ok (avg_paragraph_length st).
Proof.
  unfold _generate_statistics, paragraph_mean. cbv zeta.
  destruct (py_truediv (sum _) (len (text_density_per_page _ _)));
    [|discriminate].
  cbn [mbind result_bind].
  destruct (decide (size (hierarchical_counts_per_page es) ≠ 0%nat)).
  - destruct (py_truediv (sum_values _) _); [|discriminate].
    cbn [mbind result_bind].
    destruct (paragraphs es) as [|p ps].
    + cbn [mbind result_bind]. by intros [= <-].
    + destruct (py_truediv _ (len (p :: ps))); [|discriminate].
      cbn [mbind result_bind]. by intros [= <-].
  - cbn [mbind result_bind].
    destruct (paragraphs es) as [|p ps].
    + cbn [mbind result_bind]. by intros [= <-].
    + destruct (py_truediv _ (len (p :: ps))); [|discriminate].
      cbn [mbind result_bind]. by intros [= <-].
Qed.

Lemma sum_filter {A} (P : A -> Prop) `{!forall x, Decision (P x)}
  (f : A -> Z) l :
  sum (map f (filter P l))
  = sum (map (fun x => if decide (P x) then f x else 0) l).
Proof.
  induction l as [|x l IH]; [done|].
  rewrite filter_cons. cbn [map]. rewrite (sum_cons (if decide (P x) then _ else _)).
  destruct (decide (P x)); [cbn [map]; rewrite sum_cons|]; lia.
Qed.

Lemma paragraph_words_spec es :
  sum (map (fun p => len (split (content p))) (paragraphs es))
  = paragraph_words es.
Proof. apply sum_filter. Qed.

Lemma paragraph_count_spec es : len (paragraphs es) = paragraph_count es.
Proof.
  unfold paragraph_count, paragraphs.
  rewrite <- (sum_filter _ (fun _ => 1)).
  induction (filter _ es) as [|x l IH]; [done|].
  cbn [map]. rewrite sum_cons, len_cons. lia.
Qed.

Example mixed_paragraphs :
  paragraph_words mixed_elements = 3
  /\ paragraph_count mixed_elements = 2
  /\ avg_paragraph_length mixed_statistics = PyFloat (binary64 (15 # 10)).
Proof. vm_compute. repeat split. Qed.

(** X13. [avg_paragraph_length] is the integer 0 when no element has the
    type [PARAGRAPH]; otherwise it is the number of words of the elements of
    that type divided by the number of such elements, rounded to two places.
    It depends on the elements of type [PARAGRAPH] alone, not on the page
    count or on elements of other types. *)
Theorem avg_paragraph_length_spec total_pages es st :
  _generate_statistics total_pages es = Ok st ->
  (Forall (fun e => element_type e <> PARAGRAPH) es ->
   avg_paragraph_length st = PyInt 0)
  /\ (Exists (fun e => element_type e = PARAGRAPH) es ->
      exists mean,
        py_truediv (paragraph_words es) (paragraph_count es) = Ok mean
        /\ avg_paragraph_length st = PyFloat (py_round mean 2))
  /\ (forall total_pages' es' st',
        _generate_statistics total_pages' es' = Ok st' ->
        filter (fun e => element_type e = PARAGRAPH) es'
        = filter (fun e => element_type e = PARAGRAPH) es ->
        avg_paragraph_length st' = avg_paragraph_length st).
Proof.
  intros H%generate_statistics_paragraph. split; [|split].
  - intros E.
    apply (filter_nil_Forall (fun e => element_type e = PARAGRAPH)) in E.
    fold (paragraphs es) in E.
    rewrite E in H. simpl in H. by injection H as <-.
  - intros (e & He & Hp)%Exists_exists.
    rewrite <- paragraph_words_spec, <- paragraph_count_spec.
    assert (e ∈ paragraphs es) as Hin.
    { apply list_elem_of_filter. by split. }
    unfold paragraph_mean in H.
    destruct (paragraphs es) as [|p ps]; [by apply elem_of_nil in Hin|].
    destruct (py_truediv _ _) as [mean|]; [|discriminate].
    cbn [mbind result_bind] in H. injection H as <-. eauto.
  - intros n' es' st' H'%generate_statistics_paragraph E.
    fold (paragraphs es') (paragraphs es) in E.
    rewrite E, H in H'. by injection H' as ->.
Qed.

Lemma avg_paragraph_length_spec_witness :
  exists mean,
    py_truediv (paragraph_words mixed_elements)
               (paragraph_count mixed_elements) = Ok mean
    /\ avg_paragraph_length mixed_statistics = PyFloat (py_round mean 2).
Proof.
  refine (proj1 (proj2 (avg_paragraph_length_spec 3 mixed_elements
                          mixed_statistics _)) _).
  - vm_compute. reflexivity.
  - apply Exists_cons_hd. reflexivity.
Defined.

Lemma tally_lookup_exact keys k :
  tally keys ∅ !! k
  = if decide (occurrences k keys = 0) then None
    else Some (occurrences k keys).
Proof.
  pose proof (tally_lookup keys ∅ k) as Hl.
  pose proof (tally_positive keys ∅ (map_Forall_empty _)) as Hp.
  rewrite lookup_empty in Hl. simpl in Hl.
  destruct (tally keys ∅ !! k) as [v|] eqn:E; simpl in Hl.
  - specialize (Hp k v E). simpl in Hp.
    rewrite decide_False by lia. f_equal. lia.
  - rewrite decide_True by lia. done.
Qed.

(** X14. [section_distribution] maps a page to the number of [section]
    elements on it and has no entry for a page without one. *)
Theorem section_distribution_lookup total_pages es st p :
  _generate_statistics total_pages es = Ok st ->
  section_distribution st !! p
  = if decide (sections_on_page es p = 0) then None
    else Some (sections_on_page es p).
Proof.
  intros (_ & _ & _ & _ & _ & _ & ->)%generate_statistics_fields.
  rewrite section_distribution_tally, tally_lookup_exact.
  by rewrite occurrences_map.
Qed.

Lemma section_distribution_lookup_witness :
  section_distribution one_section_statistics !! 2 = Some 1
  /\ section_distribution one_section_statistics !! 3 = None.
Proof.
  split.
  - apply (section_distribution_lookup 5 one_section one_section_statistics 2).
    vm_compute. reflexivity.
  - apply (section_distribution_lookup 5 one_section one_section_statistics 3).
    vm_compute. reflexivity.
Defined.

Lemma sum_perm l l' : l ≡ₚ l' -> sum l = sum l'.
Proof.
  induction 1 as [|x l l' _ IH|x y l|l l' l'' _ IH1 _ IH2].
  - done.
  - by rewrite !sum_cons, IH.
  - rewrite !sum_cons. lia.
  - congruence.
Qed.

Lemma len_perm {A} (l l' : list A) : l ≡ₚ l' -> len l = len l'.
Proof. intros H. unfold len. by rewrite H. Qed.

Lemma tally_perm keys keys' :
  keys ≡ₚ keys' -> tally keys ∅ = tally keys' ∅.
Proof.
  intros H. apply map_eq. intros k. rewrite !tally_lookup_exact.
  unfold occurrences. by rewrite (len_perm _ _ (filter_Permutation _ _ _ H)).
Qed.

(** X15. The statistics do not depend on the order of the elements: two
    lists that are permutations of each other aggregate alike. *)
Theorem generate_statistics_order total_pages es es' :
  es ≡ₚ es' ->
  _generate_statistics total_pages es = _generate_statistics total_pages es'.
Proof.
  intros H.
  assert (forall (P : DocumentElement -> Prop) `{!forall e, Decision (P e)},
            filter P es ≡ₚ filter P es') as Hfilter.
  { intros P ?. by apply filter_Permutation. }
  assert (text_density_per_page total_pages es
          = text_density_per_page total_pages es') as Hdensity.
  { unfold text_density_per_page. apply map_ext. intros p.
    apply sum_perm, Permutation_map, Hfilter. }
  assert (hierarchical_counts_per_page es
          = hierarchical_counts_per_page es') as Hdepth.
  { rewrite !hierarchical_counts_tally.
    apply tally_perm, Permutation_map, Hfilter. }
  assert (section_distribution_of es = section_distribution_of es') as Hdist.
  { rewrite !section_distribution_tally.
    apply tally_perm, Permutation_map, Hfilter. }
  assert (paragraph_mean (paragraphs es) = paragraph_mean (paragraphs es'))
    as Hwords.
  { pose proof (Hfilter (fun e => element_type e = PARAGRAPH) _) as Hp.
    fold (paragraphs es) in Hp. fold (paragraphs es') in Hp.
    unfold paragraph_mean.
    destruct (paragraphs es) as [|p ps], (paragraphs es') as [|p' ps'].
    - done.
    - by apply Permutation_nil_cons in Hp.
    - symmetry in Hp. by apply Permutation_nil_cons in Hp.
    - rewrite (sum_perm _ _ (Permutation_map _ Hp)), (len_perm _ _ Hp). done. }
  unfold _generate_statistics. cbv zeta.
  rewrite !Counter_count, Hdensity, Hdepth, Hdist.
  rewrite !(len_perm _ _ (Hfilter _ _)).
  unfold paragraph_mean in Hwords.
  destruct (paragraphs es) as [|p ps], (paragraphs es') as [|p' ps'];
    try discriminate; by rewrite ?Hwords.
Qed.

Lemma generate_statistics_order_witness :
  _generate_statistics 2
    [sample_element TITLE "a" 1; sample_element PARAGRAPH "b c" 2]
  = _generate_statistics 2
      [sample_element PARAGRAPH "b c" 2; sample_element TITLE "a" 1].
Proof.
  apply generate_statistics_order. apply perm_swap.
Defined.

(** ** Storage: saving and querying *)

Lemma next_id_bound ids x : x ∈ ids -> x < next_id ids.
Proof.
  unfold next_id. induction ids as [|y ids IH]; simpl.
  - by intros ?%not_elem_of_nil.
  - intros [->|H]%elem_of_cons; [lia|]. specialize (IH H). lia.
Qed.

Lemma flat_map_nil {A B} (f : A -> list B) l :
  Forall (fun x => f x = []) l -> flat_map f l = [].
Proof. induction 1 as [|x l Hx _ IH]; simpl; [done|by rewrite Hx, IH]. Qed.

Lemma flat_map_same {A B} (f g : A -> list B) l :
  Forall (fun x => f x = g x) l -> flat_map f l = flat_map g l.
Proof. induction 1 as [|x l Hx _ IH]; simpl; [done|by rewrite Hx, IH]. Qed.

Lemma flat_map_wrap {A B} (f : A -> B) l :
  flat_map (fun x => [f x]) l = map f l.
Proof. induction l as [|x l IH]; simpl; [done|by rewrite IH]. Qed.

Section saving.
Context (db : Database) (uuid : string) (original_filename : pystr).
Context (es : list DocumentElement) (stats : DocumentStatistics).
Context (Hok : consistent db).
Context (Hfresh : uuid ∉ map document_uuid (documents db)).
Context (Hdocument : document_row_accepted db original_filename).
Context (Helements : element_rows_accepted db es).
Context (Hstatistics : statistics_row_accepted stats).

Let new_document_id := next_id (map document_row_id (documents db)).
Let first_id :=
  next_id (map (fun e => row_id (element_row e)) (elements_table db)).
Let new_document :=
  {| document_row_id := new_document_id;
     document_uuid := uuid;
     filename := original_filename |}.
Let db' :=
  {| documents := documents db ++ [new_document];
     elements_table :=
       elements_table db
       ++ map (fun r => {| document_id := new_document_id;
                           element_row := r |})
              (save_rows first_id es);
     statistics_table := statistics_table db ++ [(new_document_id, stats)] |}.

Lemma save_document_fresh :
  save_document db uuid original_filename es stats = Some (db', uuid).
Proof. unfold save_document. by rewrite decide_False, decide_True. Qed.

Lemma new_document_id_fresh d :
  d ∈ documents db -> document_row_id d <> new_document_id.
Proof.
  intros Hd. pose proof (next_id_bound (map document_row_id (documents db))
                           (document_row_id d)) as Hlt.
  subst new_document_id. rewrite list_elem_of_In, in_map_iff in Hlt.
  assert (document_row_id d < next_id (map document_row_id (documents db))).
  { apply Hlt. exists d. split; [done|]. by apply list_elem_of_In. }
  lia.
Qed.

Lemma old_documents_other_uuid d :
  d ∈ documents db -> document_uuid d <> uuid.
Proof.
  intros Hd Hu. apply Hfresh. rewrite list_elem_of_In, in_map_iff.
  exists d. split; [done|]. by apply list_elem_of_In.
Qed.

Lemma old_row_old_document e :
  e ∈ elements_table db -> document_id e <> new_document_id.
Proof.
  intros He. destruct Hok as (_ & _ & Hfk). rewrite Forall_forall in Hfk.
  specialize (Hfk e He). rewrite list_elem_of_In, in_map_iff in Hfk.
  destruct Hfk as (d & <- & Hd%list_elem_of_In).
  by apply new_document_id_fresh.
Qed.

(** The rows the join gives for the UUID just saved. *)
Lemma joined_rows_saved : joined_rows db' uuid = save_rows first_id es.
Proof.
  unfold joined_rows. cbn [documents elements_table db'].
  rewrite flat_map_app, flat_map_nil, app_nil_l.
  - rewrite flat_map_concat_map, map_map, <- flat_map_concat_map.
    cbn [document_id element_row].
    rewrite (flat_map_same _ (fun r => [r])).
    + rewrite flat_map_wrap. apply map_id.
    + apply Forall_forall. intros r _. rewrite filter_app.
      rewrite (filter_none _ (documents db)).
      * by rewrite filter_cons, decide_True.
      * apply Forall_forall. intros d Hd [Hid _].
        by apply (new_document_id_fresh d).
  - apply Forall_forall. intros e He. rewrite filter_app.
    rewrite (filter_none _ (documents db)).
    + rewrite filter_cons, decide_False; [done|].
      intros [Hid _]. by apply (old_row_old_document e).
    + apply Forall_forall. intros d Hd [_ Hu].
      by apply (old_documents_other_uuid d).
Qed.

(** The rows the join gives for another UUID are those it gave before. *)
Lemma joined_rows_other uuid' :
  uuid' <> uuid -> joined_rows db' uuid' = joined_rows db uuid'.
Proof.
  intros Hne. unfold joined_rows. cbn [documents elements_table db'].
  rewrite flat_map_app, (flat_map_nil _ (map _ _)), app_nil_r.
  - apply flat_map_same, Forall_forall. intros e _.
    rewrite filter_app, filter_cons, decide_False, filter_nil, app_nil_r;
      [done|].
    intros [_ Hu]. by apply Hne.
  - apply Forall_forall. intros e (r & <- & _)%list_elem_of_In%in_map_iff.
    cbn [document_id]. rewrite filter_app.
    rewrite (filter_none _ (documents db)).
    + rewrite filter_cons, decide_False; [done|].
      intros [_ Hu]. by apply Hne.
    + apply Forall_forall. intros d Hd [Hid _].
      by apply (new_document_id_fresh d).
Qed.

Lemma consistent_saved : consistent db'.
Proof.
  destruct Hok as (Hids & Huuids & Hfk).
  unfold consistent. cbn [documents elements_table db'].
  rewrite !map_app. cbn [map]. split; [|split].
  - apply NoDup_app. split; [done|]. split; [|apply NoDup_singleton].
    intros x Hx ->%list_elem_of_singleton.
    apply next_id_bound in Hx. subst new_document_id. cbn in Hx. lia.
  - apply NoDup_app. split; [done|]. split; [|apply NoDup_singleton].
    by intros x Hx ->%list_elem_of_singleton.
  - apply Forall_app. split.
    + eapply Forall_impl; [exact Hfk|]. simpl. intros e He.
      apply elem_of_app. by left.
    + apply Forall_forall. intros e (r & <- & _)%list_elem_of_In%in_map_iff.
      cbn. apply elem_of_app. right. by apply list_elem_of_singleton.
Qed.
End saving.

Lemma consistent_empty : consistent empty_database.
Proof. repeat split; constructor. Qed.

Lemma get_document_elements_elem rows element_type page_number r :
  r ∈ get_document_elements rows element_type page_number
  <-> r ∈ rows /\ row_matches element_type page_number r.
Proof.
  unfold get_document_elements, row_matches. rewrite order_by_perm.
  destruct element_type as [t|], page_number as [n|];
    repeat case_decide; rewrite ?list_elem_of_filter; subst;
    naive_solver.
Qed.




(** A page number of 2^63 cannot be stored: the call fails and the tables
    stay as they were. *)
Example page_number_out_of_range :
  save_document empty_database "u1" (py "a.pdf")
    [sample_element SECTION "abc" (2 ^ 63)] one_section_statistics = None
  /\ save_document empty_database "u1" (py "a.pdf")
       [sample_element SECTION "abc" (2 ^ 63 - 1)] one_section_statistics
     <> None.
Proof. split; [|intros H]; vm_compute in *; congruence. Qed.

(** A content with the lone surrogate U+D800 cannot be stored. *)
Example lone_surrogate :
  save_document empty_database "u1" (py "a.pdf")
    [{| element_type := PARAGRAPH; content := [97; 55296; 98]%N;
        page_number := 1; position := origin; font_info := ∅ |}]
    one_section_statistics = None.
Proof. vm_compute. reflexivity. Qed.

(** X18. Saving a document changes nothing for the others: under every
    other UUID the query, with any filters, and the lookup of the document
    answer as before. *)
Theorem save_document_frame db uuid original_filename es stats db' u :
  save_document db uuid original_filename es stats = Some (db', u) ->
  forall uuid', uuid' <> uuid ->
    (forall element_type page_number,
       stored_document_elements db' uuid' element_type page_number
       = stored_document_elements db uuid' element_type page_number)
    /\ get_document_by_uuid db' uuid' = get_document_by_uuid db uuid'.
Proof.
  intros Hsave uuid' Hne. unfold save_document in Hsave.
  destruct (decide (uuid ∈ _)) as [|Hfresh]; [discriminate|].
  destruct (decide _) as [Haccepted|]; [|discriminate].
  injection Hsave as <- <-. split.
  - intros element_type page_number. unfold stored_document_elements.
    pose proof (joined_rows_other db uuid original_filename es stats
                  uuid' Hne) as Hrows.
    cbv zeta in Hrows. by rewrite Hrows.
  - unfold get_document_by_uuid. cbn [documents].
    rewrite filter_app, filter_cons, decide_False, filter_nil, app_nil_r;
      [done|].
    cbn. congruence.
Qed.

Lemma save_document_frame_witness :
  (forall element_type page_number,
     stored_document_elements one_document_database "u2" element_type
       page_number
     = stored_document_elements empty_database "u2" element_type page_number)
  /\ get_document_by_uuid one_document_database "u2"
     = get_document_by_uuid empty_database "u2".
Proof.
  apply (save_document_frame empty_database "u1" (py "a.pdf") one_section
           one_section_statistics one_document_database "u1").
  - vm_compute. reflexivity.
  - discriminate.
Defined.



Lemma occurrences_app `{EqDecision K} (k : K) l l' :
  occurrences k (l ++ l') = occurrences k l + occurrences k l'.
Proof. unfold occurrences, len. rewrite filter_app, length_app. lia. Qed.

(** X20. Saving a document raises, in the summary of element types, the
    count of each type by the number of saved elements of that type. *)
Theorem summary_after_save db uuid original_filename es stats db' u t :
  save_document db uuid original_filename es stats = Some (db', u) ->
  default 0 (get_element_type_summary db' !! value t)
  = default 0 (get_element_type_summary db !! value t)
    + len (filter (fun e => element_type e = t) es).
Proof.
  unfold save_document. destruct (decide (uuid ∈ _)); [discriminate|].
  destruct (decide _); [|discriminate].
  intros [= <- <-]. unfold get_element_type_summary. cbn [elements_table].
  rewrite !Counter_lookup, map_app, occurrences_app, map_map.
  cbn [element_row]. f_equal. unfold save_rows.
  rewrite (map_imap row_element_type (fun e => value (element_type e)))
    by done.
  rewrite occurrences_map. f_equal.
  apply list_filter_iff. intros e. split; [apply value_inj|congruence].
Qed.

Lemma summary_after_save_witness :
  default 0 (get_element_type_summary one_document_database !! value SECTION)
  = default 0 (get_element_type_summary empty_database !! value SECTION)
    + len (filter (fun e => element_type e = SECTION) one_section).
Proof.
  apply (summary_after_save empty_database "u1" (py "a.pdf") one_section
           one_section_statistics one_document_database "u1" SECTION).
  vm_compute. reflexivity.
Defined.

(** ** Blank blocks *)

Lemma lstrip_nil_iff s :
  lstrip s = [] <-> Forall (fun c => is_space c = true) s.
Proof.
  split; [|apply lstrip_all_space].
  induction s as [|c s IH]; simpl; [done|].
  destruct (is_space c) eqn:Hc; [|done]. intros H. constructor; auto.
Qed.

Lemma strip_nil_iff s :
  strip s = [] <-> Forall (fun c => is_space c = true) s.
Proof.
  rewrite <- lstrip_nil_iff. unfold strip. split.
  - destruct (lstrip s) as [|c t] eqn:E; [done|].
    destruct (rstrip_head c t (lstrip_head _ _ _ E)) as [t' ->]. done.
  - by intros ->.
Qed.

(** X21. A text block whose runs hold nothing but whitespace, a block
    without spans included, gives no element; every other text block gives
    exactly one, and the walk does not raise on either. *)
Theorem blank_blocks_are_skipped block ls pn :
  (Forall (fun c => is_space c = true) (run_text ls) ->
   text_element block ls pn = Ok None)
  /\ (~ Forall (fun c => is_space c = true) (run_text ls) ->
      exists element, text_element block ls pn = Ok (Some element)).
Proof.
  rewrite <- strip_nil_iff. split.
  - intros H. unfold text_element. cbv zeta.
    by rewrite collect_block_text, H.
  - intros Hne. unfold text_element. cbv zeta.
    destruct (classify_items_returns (collect_block ls).1
                (collect_block ls).2) as [ty Hty];
      [by apply text_block_font|].
    rewrite Hty, collect_block_text. cbn [mbind result_bind].
    destruct (strip (run_text ls)); [done|eauto].
Qed.

Lemma blank_blocks_are_skipped_witness :
  text_element tabbed_block [[]; []] 1 = Ok None
  /\ exists element, text_element tabbed_block tabbed_lines 1
                     = Ok (Some element).
Proof.
  split.
  - apply (proj1 (blank_blocks_are_skipped tabbed_block [[]; []] 1)).
    constructor.
  - apply (proj2 (blank_blocks_are_skipped tabbed_block tabbed_lines 1)).
    intros H. inversion H as [|c t Hc Ht]. discriminate.
Defined.

(** ** Dictionaries *)

Lemma py_inj s1 s2 : py s1 = py s2 -> s1 = s2.
Proof.
  unfold py. intros H.
  rewrite <- (string_of_list_ascii_of_string s1),
          <- (string_of_list_ascii_of_string s2).
  f_equal. revert H.
  generalize (list_ascii_of_string s1), (list_ascii_of_string s2).
  induction l as [|a l IH]; intros [|a' l']; simpl; try discriminate; [done|].
  intros [= Ha Hl]. f_equal; [|by apply IH].
  rewrite <- (ascii_N_embedding a), <- (ascii_N_embedding a'). by rewrite Ha.
Qed.

Lemma lookup_eq {V} (m m' : gmap string V) k : m = m' -> m !! k = m' !! k.
Proof. by intros ->. Qed.

(** X22. The dictionaries of [to_dict] lose nothing: two elements with the
    same dictionary are the same element, and so for statistics records. *)
Theorem to_dict_injective :
  (forall e e', element_to_dict e = element_to_dict e' -> e = e')
  /\ (forall st st', statistics_to_dict st = statistics_to_dict st' ->
                     st = st').
Proof.
  split.
  - intros [t c p pos f] [t' c' p' pos' f'] H. unfold element_to_dict in H.
    cbn in H.
    pose proof (lookup_eq _ _ "element_type" H) as H1.
    pose proof (lookup_eq _ _ "content" H) as H2.
    pose proof (lookup_eq _ _ "page_number" H) as H3.
    pose proof (lookup_eq _ _ "position" H) as H4.
    pose proof (lookup_eq _ _ "font_info" H) as H5.
    simplify_map_eq.
    match goal with
    | Hv : py (value _) = py (value _) |- _ =>
        apply py_inj, value_inj in Hv; subst
    end.
    reflexivity.
  - intros [a b c d e f g h] [a' b' c' d' e' f' g' h'] H.
    unfold statistics_to_dict in H. cbn in H.
    pose proof (lookup_eq _ _ "title_count" H) as H1.
    pose proof (lookup_eq _ _ "section_count" H) as H2.
    pose proof (lookup_eq _ _ "table_count" H) as H3.
    pose proof (lookup_eq _ _ "image_count" H) as H4.
    pose proof (lookup_eq _ _ "avg_text_density_per_page" H) as H5.
    pose proof (lookup_eq _ _ "avg_hierarchical_depth" H) as H6.
    pose proof (lookup_eq _ _ "avg_paragraph_length" H) as H7.
    pose proof (lookup_eq _ _ "section_distribution" H) as H8.
    simplify_map_eq. reflexivity.
Qed.

Lemma to_dict_injective_witness :
  sample_element SECTION "abc def" 2 = sample_element SECTION "abc def" 2.
Proof.
  apply (proj1 to_dict_injective). reflexivity.
Defined.
